(** * Pentair pool controller: the protocol layer of [pool_controller.py]

    A shallow embedding of class [PentairCom]: frame extraction and checksum
    validation ([get_packet]), status decoding ([read_status]), the freshness
    handshake ([get_status]) and the command dispatcher ([send_command]),
    followed by the properties of the protocol layer.

    Conventions.
    - Python integers are [Z]; the bytes delivered by the serial line are
      [Byte.byte] and become integers through [ord].
    - The object's attributes and the two things it talks to (the serial line
      and the wall clock) are the fields of the record [PentairCom].
    - A method is a function from the state to an [outcome]: it returns a
      value, raises an exception, or blocks for ever.  All three carry the
      state reached, because the mutations made before an exception stay.
    - Logging calls have no effect on the state and are left out. *)

From Stdlib Require Import ZArith String Ascii List Lia.
From Stdlib.Strings Require Import Byte.
From stdpp Require Import base decidable option list gmap strings pretty.

Local Open Scope Z_scope.

(** ** Python values stored in the status dictionary or passed as [state] *)

Inductive value : Type :=
  | VStr (s : string)
  | VInt (n : Z)
  | VBool (b : bool)
  | VTime (t : Z).

Global Instance value_eq_dec : EqDecision value.
Proof. solve_decision. Defined.

(** Python's [==]: a [str] only equals a [str]; [bool] is a subtype of [int]
    ([True == 1]); a [datetime] only equals a [datetime]. *)
Definition py_eqb (a b : value) : bool :=
  match a, b with
  | VStr s, VStr t => String.eqb s t
  | VInt n, VInt m => Z.eqb n m
  | VInt n, VBool c => Z.eqb n (Z.b2z c)
  | VBool c, VInt m => Z.eqb (Z.b2z c) m
  | VBool c, VBool d => Bool.eqb c d
  | VTime t, VTime u => Z.eqb t u
  | _, _ => false
  end.

Inductive exn : Type :=
  | IndexError
  | KeyError
  | ValueError
  | OverflowError
  | AssertionError.

(** ** The object and its world *)

Record PentairCom : Type := mkPentairCom {
  port_in : list byte;          (* bytes the serial line still has to deliver *)
  port_out : list (list byte);  (* one entry per [port.write], oldest first *)
  status : gmap string value;   (* [self.status], one shared dictionary *)
  ready : bool;                 (* [self.ready] *)
  clock : nat -> Z;             (* successive readings of [datetime.now()], in microseconds *)
  tick : nat                    (* number of readings taken so far *)
}.

Definition set_port_in (p : list byte) (st : PentairCom) : PentairCom :=
  mkPentairCom p (port_out st) (status st) (ready st) (clock st) (tick st).
Definition set_port_out (o : list (list byte)) (st : PentairCom) : PentairCom :=
  mkPentairCom (port_in st) o (status st) (ready st) (clock st) (tick st).
Definition set_status (d : gmap string value) (st : PentairCom) : PentairCom :=
  mkPentairCom (port_in st) (port_out st) d (ready st) (clock st) (tick st).
Definition set_ready (r : bool) (st : PentairCom) : PentairCom :=
  mkPentairCom (port_in st) (port_out st) (status st) r (clock st) (tick st).
Definition set_tick (n : nat) (st : PentairCom) : PentairCom :=
  mkPentairCom (port_in st) (port_out st) (status st) (ready st) (clock st) n.

Inductive outcome (A : Type) : Type :=
  | Return (a : A) (st : PentairCom)
  | Raise (e : exn) (st : PentairCom)
  | Blocked (st : PentairCom).
Arguments Return {A} a st.
Arguments Raise {A} e st.
Arguments Blocked {A} st.

Definition M (A : Type) : Type := PentairCom -> outcome A.

Definition ret {A} (a : A) : M A := fun st => Return a st.
Definition bind {A B} (m : M A) (k : A -> M B) : M B :=
  fun st =>
    match m st with
    | Return a st' => k a st'
    | Raise e st' => Raise e st'
    | Blocked st' => Blocked st'
    end.
Definition raise {A} (e : exn) : M A := fun st => Raise e st.

Notation "'do' x <- m ; k" := (bind m (fun x => k))
  (at level 10, x name, m at level 100, k at level 200).
Notation "'do' ' p <- m ; k" := (bind m (fun x => match x with p => k end))
  (at level 10, p pattern, m at level 100, k at level 200).
Notation "m ;;; k" := (bind m (fun _ => k))
  (at level 100, k at level 200, right associativity).

(** The state an outcome ends in. *)
Definition final {A} (o : outcome A) : PentairCom :=
  match o with Return _ st | Raise _ st | Blocked st => st end.

(** An [option] used as a Python lookup that raises when it fails. *)
Definition lift {A} (e : exn) (o : option A) : M A :=
  match o with Some a => ret a | None => raise e end.

(** ** The serial line and the clock *)

Definition ord (b : byte) : Z := Z.of_N (Byte.to_N b).

(** [port.read(n)] on a port opened without timeout: blocks until [n] bytes
    have arrived. *)
Definition port_read (n : nat) : M (list byte) :=
  fun st =>
    if bool_decide (n <= length (port_in st))%nat
    then Return (take n (port_in st)) (set_port_in (drop n (port_in st)) st)
    else Blocked st.

(** [ord(port.read())] *)
Definition port_read_ord : M Z :=
  fun st =>
    match port_in st with
    | b :: rest => Return (ord b) (set_port_in rest st)
    | [] => Blocked st
    end.

(** [array.array('B', l)]: every item must fit an unsigned byte. *)
Definition array_B (l : list Z) : option (list byte) :=
  mapM (fun x => if bool_decide (0 <= x < 256) then Byte.of_N (Z.to_N x) else None) l.

Definition port_write (data : list byte) : M unit :=
  fun st => Return tt (set_port_out (port_out st ++ [data]) st).

(** [datetime.datetime.now()] *)
Definition now : M Z :=
  fun st => Return (clock st (tick st)) (set_tick (S (tick st)) st).

(** ** [get_packet] *)

Definition sum (l : list Z) : Z := foldr Z.add 0 l.

Definition preamble : list Z := [255; 0; 255; 165].

(** Lines 104-107: slide a window of four bytes until it holds the preamble.
    Gives back what is left of the line, or [None] when the preamble never
    comes. *)
Fixpoint sync (line : list byte) (header : list Z) {struct line} : option (list byte) :=
  if bool_decide (header = preamble) then Some line
  else match line with
       | [] => None
       | b :: line' => sync line' (tail header ++ [ord b])
       end.

Definition port_sync : M unit :=
  fun st =>
    match sync (port_in st) [0; 0; 0; 0] with
    | Some rest => Return tt (set_port_in rest st)
    | None => Blocked st
    end.

(** Lines 104-113: the assembled packet (from the byte 165 to the last
    payload byte) with the transmitted checksum. *)
Definition read_frame : M (list Z * Z) :=
  port_sync ;;;
  do hdr <- port_read 5;
  let packet := [165] ++ (ord <$> hdr) in
  do payload <- port_read (Z.to_nat (default 0 (last packet)));
  let packet := packet ++ (ord <$> payload) in
  do hi <- port_read_ord;
  do lo <- port_read_ord;
  ret (packet, hi * 256 + lo).

Definition get_packet : M (list Z) :=
  do '(packet, checksum) <- read_frame;
  let packet_checksum := sum packet in
  if bool_decide (packet_checksum <> checksum) then ret [] else ret packet.

(** ** Class constants *)

Module Ctrl.
Definition MAIN : Z := 0x10.
Definition REMOTE : Z := 0x20.
Definition PUMP1 : Z := 0x60.
Definition BROADCAST : Z := 0x0f.
End Ctrl.

Module Feature.
Definition SPA : Z := 1.
Definition CLEANER : Z := 2.
Definition AIR_BLOWER : Z := 3.
Definition SPA_LIGHT : Z := 4.
Definition POOL_LIGHT : Z := 5.
Definition POOL : Z := 6.
Definition WATER_FEATURE : Z := 7.
Definition SPILLWAY : Z := 8.
Definition AUX : Z := 9.
End Feature.

Definition timeout : Z := 5.
Definition Equip1 : nat := 8.
Definition Equip2 : nat := 9.
Definition WaterTemp : nat := 20.
Definition AirTemp : nat := 24.
Definition Hour : nat := 6.
Definition Minute : nat := 7.

(** The dictionary [Controller]. *)
Definition Controller (a : Z) : option string :=
  if bool_decide (a = Ctrl.MAIN) then Some "Main"%string
  else if bool_decide (a = Ctrl.REMOTE) then Some "Remote"%string
  else if bool_decide (a = Ctrl.PUMP1) then Some "Pump1"%string
  else if bool_decide (a = Ctrl.BROADCAST) then Some "Broadcast"%string
  else None.

(** The dictionary [state]. *)
Definition state_name (n : Z) : option string :=
  if bool_decide (n = 0) then Some "off"%string
  else if bool_decide (n = 1) then Some "on"%string
  else None.

Definition FeatureName : list (string * Z) :=
  [ ("pool"%string, Feature.POOL);
    ("spa"%string, Feature.SPA);
    ("cleaner"%string, Feature.CLEANER);
    ("air_blower"%string, Feature.AIR_BLOWER);
    ("spa_light"%string, Feature.SPA_LIGHT);
    ("pool_light"%string, Feature.POOL_LIGHT);
    ("water_feature"%string, Feature.WATER_FEATURE);
    ("spillway"%string, Feature.SPILLWAY);
    ("aux"%string, Feature.AUX) ].

(** [{v: k for k, v in self.FeatureName.items()}[feature_number]]: the
    comprehension inserts in order, a later item replacing an earlier one;
    [None] is the [KeyError]. *)
Definition get_feature_name (feature_number : Z) : option string :=
  foldl (fun (m : gmap Z string) kv => <[kv.2 := kv.1]> m) ∅ FeatureName
    !! feature_number.

(** ** String formatting used by the decoder *)

Fixpoint pos_bits (p : positive) (acc : string) : string :=
  match p with
  | xH => String "1" acc
  | xO q => pos_bits q (String "0" acc)
  | xI q => pos_bits q (String "1" acc)
  end.

(** Left padding with zeros up to [width], as a [0w] format field does for a
    number that is not negative. *)
Definition zero_pad (width : nat) (s : string) : string :=
  String.concat "" (replicate (width - String.length s) "0"%string) +:+ s.

Definition digits_b (n : Z) : string :=
  match n with
  | Z0 => "0"
  | Zpos p => pos_bits p ""
  | Zneg p => String "-" (pos_bits p "")
  end.

(** ["{0:08b}".format(n)] *)
Definition format_08b (n : Z) : string := zero_pad 8 (digits_b n).

(** ["{0:02d}".format(n)] *)
Definition format_02d (n : Z) : string := zero_pad 2 (pretty n).

(** [s[i:j]] for [0 <= i <= j] *)
Definition slice (s : string) (i j : nat) : string := substring i (j - i) s.

Definition digit_of (c : ascii) : option Z :=
  let n := Z.of_nat (nat_of_ascii c) in
  if bool_decide (48 <= n <= 57) then Some (n - 48) else None.

Fixpoint int_digits (s : string) (acc : Z) : option Z :=
  match s with
  | EmptyString => Some acc
  | String c s' =>
      match digit_of c with
      | Some d => int_digits s' (10 * acc + d)
      | None => None
      end
  end.

(** [int(s)] on a string of decimal digits; [None] is the [ValueError]
    raised on the empty string and on any other character (signs and blanks,
    which Python accepts, never occur in a one-character slice of digits). *)
Definition int_of_str (s : string) : option Z :=
  match s with
  | EmptyString => None
  | _ => int_digits s 0
  end.

(** ** [read_status] *)

(** [packet[i]] *)
Definition item (packet : list Z) (i : nat) : M Z := lift IndexError (packet !! i).

(** [self.status[key] = v] *)
Definition store (key : string) (v : value) : M unit :=
  fun st => Return tt (set_status (<[key := v]> (status st)) st).

(** [self.status[key]] *)
Definition fetch (key : string) : M value :=
  fun st => lift KeyError (status st !! key) st.

(** The name of a known bus participant, or its raw address. *)
Definition controller_of (a : Z) : value :=
  match Controller a with
  | Some name => VStr name
  | None => VInt a
  end.

(** [self.state[int(equip[i:j])]] *)
Definition state_of_bit (equip : string) (i j : nat) : M value :=
  do n <- lift ValueError (int_of_str (slice equip i j));
  do name <- lift KeyError (state_name n);
  ret (VStr name).

(** Lines 188-191: pump telemetry, merged into the running snapshot. *)
Definition read_status_pump (packet : list Z) (src_controller : value) : M unit :=
  if py_eqb src_controller (VStr "Pump1") then
    do cmd <- item packet 4;
    if bool_decide (cmd = 0x07) && bool_decide (length packet = 21%nat) then
      do w1 <- item packet 9;
      do w0 <- item packet 10;
      store "pump_watts" (VInt (Z.shiftl w1 8 + w0)) ;;;
      do r1 <- item packet 11;
      do r0 <- item packet 12;
      store "pump_rpm" (VInt (Z.shiftl r1 8 + r0))
    else ret tt
  else ret tt.

(** Lines 170-194, the [while not done] loop.  Every turn that comes back
    from [get_packet] has consumed bytes of the line, so a supply of turns
    larger than the number of bytes left is never used up.  The loop hands
    over the accepted packet with the two names computed in its last turn. *)
Fixpoint read_status_loop (turns : nat) (controller : option Z) : M (list Z * value * value) :=
  match turns with
  | O => fun st => Blocked st
  | S turns' =>
      do packet <- get_packet;
      if bool_decide (3 < length packet)%nat then
        do dst <- item packet 2;
        let dst_controller := controller_of dst in
        do src <- item packet 3;
        let src_controller := controller_of src in
        read_status_pump packet src_controller ;;;
        if bool_decide (3 < length packet)%nat
           && (bool_decide (controller = None) || bool_decide (dst = Ctrl.BROADCAST))
        then ret (packet, src_controller, dst_controller)
        else read_status_loop turns' controller
      else read_status_loop turns' controller
  end.

(** Lines 213-216: the two temperatures. *)
Definition read_status_temps (packet : list Z) : M unit :=
  (if bool_decide (WaterTemp <= length packet)%nat
   then do w <- item packet WaterTemp; store "water_temp" (VInt w)
   else ret tt) ;;;
  (if bool_decide (AirTemp <= length packet)%nat
   then do a <- item packet AirTemp; store "air_temp" (VInt a)
   else ret tt).

(** Lines 196-219: decoding of the accepted packet into [self.status]. *)
Definition read_status_decode (packet : list Z) (src_controller dst_controller : value)
  : M (gmap string value) :=
  do data_length <- item packet 5;
  (if bool_decide (8 < data_length) then
     do e1 <- item packet Equip1;
     let equip1 := format_08b e1 in
     do e2 <- item packet Equip2;
     let equip2 := format_08b e2 in
     do t <- now;
     store "last_update" (VTime t) ;;;
     store "source" src_controller ;;;
     store "destination" dst_controller ;;;
     do h <- item packet 6;
     do m <- item packet 7;
     store "time" (VStr (format_02d h +:+ ":" +:+ format_02d m)) ;;;
     do v <- state_of_bit equip1 0 1; store "spillway" v ;;;
     do v <- state_of_bit equip1 2 3; store "pool" v ;;;
     do v <- state_of_bit equip1 7 8; store "spa" v ;;;
     do v <- state_of_bit equip1 5 6; store "air_blower" v ;;;
     do v <- state_of_bit equip1 3 4; store "pool_light" v ;;;
     do v <- state_of_bit equip1 4 5; store "spa_light" v ;;;
     do v <- state_of_bit equip1 6 7; store "cleaner" v ;;;
     do v <- state_of_bit equip1 1 2; store "water_feature" v ;;;
     do v <- state_of_bit equip2 7 8; store "aux" v ;;;
     read_status_temps packet
   else ret tt) ;;;
  (fun st => Return tt (set_ready true st)) ;;;
  (fun st => Return (status st) st).

Definition read_status (controller : option Z) : M (gmap string value) :=
  fun st =>
    (do '(packet, src_controller, dst_controller) <-
        read_status_loop (S (length (port_in st))) controller;
     read_status_decode packet src_controller dst_controller) st.

(** ** [get_status] and [send_command]

    The caller of [get_status] clears [self.ready] and sleeps until it finds
    the flag set.  What the reading thread does meanwhile is the parameter
    [background]: from the state in which the caller goes to sleep to the
    state in which it wakes up, or [None] when the thread never completes a
    pass.  The properties of [send_command] hold for every such behaviour;
    [run_pass] below is the thread completing exactly one pass. *)

Section Dispatcher.

Variable background : PentairCom -> option PentairCom.

Definition get_status : M (gmap string value) :=
  fun st =>
    match background (set_ready false st) with
    | Some st' => if ready st' then Return (status st') st' else Blocked st'
    | None => Blocked (set_ready false st)
    end.

(** Line 135 *)
Definition command_packet (feature : Z) (state : value) : list Z :=
  [165; 31; Ctrl.MAIN; Ctrl.REMOTE; 134; 2; feature;
   if py_eqb state (VStr "on") then 1 else 0].

(** Lines 134-139: [header + packet] once the two checksum bytes are
    appended.  [int(checksum / 256)] truncates the quotient. *)
Definition command_data (feature : Z) (state : value) : list Z :=
  let header := [0x00; 0xff] in
  let packet := command_packet feature state in
  let checksum := sum packet in
  header ++ (packet ++ [Z.quot checksum 256]) ++ [checksum mod 256].

(** Lines 145-151.  The local [status] is the dictionary [self.status]
    itself ([get_status] returns the object, not a copy), so the condition
    reads the store.  The result is the value of [retry] on leaving. *)
Fixpoint send_command_loop (retry : nat) (feature_name : string) (state : value)
    (data : list byte) : M nat :=
  do v <- fetch feature_name;
  if negb (py_eqb v state) then
    match retry with
    | O => ret O
    | S retry' =>
        port_write data ;;;
        get_status ;;;
        send_command_loop retry' feature_name state data
    end
  else ret retry.

(** [(now - start).total_seconds() > secs], on microsecond readings. *)
Definition total_seconds_gt (start t secs : Z) : bool :=
  bool_decide (secs * 1000000 < t - start).

(** Lines 142-151: the first wait and the retries.  The results are the
    local [start] and the value of [retry] on leaving the loop. *)
Definition send_command_await (feature_name : string) (state : value)
    (data : list byte) : M (Z * nat) :=
  do start <- now;
  get_status ;;;
  fetch feature_name ;;;
  do retry <- send_command_loop 5 feature_name state data;
  ret (start, retry).

(** Lines 152-158 *)
Definition send_command_finish (start : Z) : M (gmap string value) :=
  do t <- now;
  if total_seconds_gt start t timeout then raise AssertionError
  else
    now ;;;
    (fun st => Return (status st) st).

(** Lines 142-158: everything after the first write. *)
Definition send_command_confirm (feature_name : string) (state : value)
    (data : list byte) : M (gmap string value) :=
  do '(start, _) <- send_command_await feature_name state data;
  send_command_finish start.

Definition send_command (feature : Z) (state : value) : M (gmap string value) :=
  do feature_name <- lift KeyError (get_feature_name feature);
  do data <- lift OverflowError (array_B (command_data feature state));
  port_write data ;;;
  send_command_confirm feature_name state data.

End Dispatcher.

(** The thread ([run]) completing one pass of [read_status] while the caller
    sleeps; a pass that raises kills the thread, one that blocks never ends. *)
Definition run_pass (st : PentairCom) : option PentairCom :=
  match read_status (Some Ctrl.BROADCAST) st with
  | Return _ st' => Some st'
  | _ => None
  end.



(** ** Vocabulary of the properties *)

(** A packet as [get_packet] returns it when the checksum agrees: every item
    is a byte value and there are as many payload bytes as [packet[5]] says. *)
Definition is_frame (packet : list Z) : Prop :=
  Forall (fun x => 0 <= x < 256) packet /\
  length packet = (6 + Z.to_nat (default 0%Z (packet !! 5%nat)))%nat.

Global Instance is_frame_dec packet : Decision (is_frame packet).
Proof. unfold is_frame. apply _. Defined.

Definition on_off (b : bool) : string := if b then "on" else "off".

(** The assignments of lines 200-212 in source order, for a packet with
    equipment bytes [e1], [e2], clock bytes [h], [m], decoded at time [t]. *)
Definition decoded_fields (t : Z) (src dst : value) (h m e1 e2 : Z)
  : list (string * value) :=
  let bit e i := VStr (on_off (Z.testbit e (7 - i))) in
  [ ("last_update"%string, VTime t);
    ("source"%string, src);
    ("destination"%string, dst);
    ("time"%string, VStr (format_02d h +:+ ":" +:+ format_02d m));
    ("spillway"%string, bit e1 0);
    ("pool"%string, bit e1 2);
    ("spa"%string, bit e1 7);
    ("air_blower"%string, bit e1 5);
    ("pool_light"%string, bit e1 3);
    ("spa_light"%string, bit e1 4);
    ("cleaner"%string, bit e1 6);
    ("water_feature"%string, bit e1 1);
    ("aux"%string, bit e2 7) ].

(** [d[k] = v] for each pair in turn. *)
Definition assign_all (fields : list (string * value)) (d : gmap string value)
  : gmap string value :=
  foldl (fun d kv => <[kv.1 := kv.2]> d) d fields.

(** Concrete lines and states used by the examples below. *)
Definition bytes (l : list Z) : list byte :=
  omap (fun x => Byte.of_N (Z.to_N x)) l.

Definition idle (line : list byte) : PentairCom :=
  mkPentairCom line [] ∅ false (fun _ => 0) 0.

(** A frame as a bus participant sends it: preamble, body from the byte 165
    on, and the additive checksum of that body. *)
Definition frame (body : list Z) : list byte :=
  bytes ([255; 0; 255] ++ body ++ [sum body / 256; sum body mod 256]).

(** The body of a broadcast status frame from the main controller: equipment
    bytes [e1] and [e2], the clock at 10:30, and [k] more payload bytes, so
    that the packet has [10 + k] items and declares [4 + k] payload bytes. *)
Definition status_body (e1 e2 : Z) (k : nat) : list Z :=
  [165; 1; Ctrl.BROADCAST; Ctrl.MAIN; 2; 4 + Z.of_nat k; 10; 30; e1; e2]
    ++ replicate k 70.

(** A state with nothing stored, whose clock advances by [us] microseconds
    from one reading to the next. *)
Definition at_pace (us : Z) (line : list byte) : PentairCom :=
  mkPentairCom line [] ∅ false (fun n => us * Z.of_nat n) 0.

(** [m] never writes to the port, however it ends. *)
Definition never_writes {A} (m : M A) : Prop :=
  forall st, port_out (final (m st)) = port_out st.

(** The keys that lines 200-216 assign. *)
Definition decoded_keys : list string :=
  [ "last_update"; "source"; "destination"; "time"; "spillway"; "pool"; "spa";
    "air_blower"; "pool_light"; "spa_light"; "cleaner"; "water_feature"; "aux";
    "water_temp"; "air_temp" ]%string.

(** * Properties *)

(** ** The monad *)

Lemma bind_Return_inv {A B} (m : M A) (k : A -> M B) st b st' :
  bind m k st = Return b st' ->
  exists a st1, m st = Return a st1 /\ k a st1 = Return b st'.
Proof.
  unfold bind. destruct (m st) as [a st1|e st1|st1]; intros H; try discriminate.
  exists a, st1. split; [reflexivity | exact H].
Qed.

Lemma bind_Return {A B} (m : M A) (k : A -> M B) st a st1 :
  m st = Return a st1 -> bind m k st = k a st1.
Proof. unfold bind. intros ->. reflexivity. Qed.

Ltac bind_inv H :=
  let a := fresh "a" in
  let s := fresh "s" in
  let Ha := fresh "Hm" in
  let H' := fresh "H" in
  destruct (bind_Return_inv _ _ _ _ _ H) as (a & s & Ha & H');
  clear H; rename H' into H.

(** ** Bytes and the serial line *)

Lemma ord_range (b : byte) : 0 <= ord b < 256.
Proof.
  unfold ord. pose proof (Byte.to_N_bounded b) as Hb. lia.
Qed.

Lemma Forall_ord (l : list byte) : Forall (fun x => 0 <= x < 256) (ord <$> l).
Proof. induction l; constructor; [apply ord_range | assumption]. Qed.

Lemma sync_shorter (line : list byte) :
  forall header rest, sync line header = Some rest -> (length rest <= length line)%nat.
Proof.
  induction line as [|b line IH]; intros header rest; simpl.
  - case_bool_decide as Hd; [intros [= <-]; simpl; lia | discriminate].
  - case_bool_decide as Hd.
    + intros [= <-]. simpl. lia.
    + intros Hs%IH. lia.
Qed.

Lemma port_read_inv n st bs st' :
  port_read n st = Return bs st' ->
  length bs = n /\ port_in st = bs ++ port_in st' /\ st' = set_port_in (port_in st') st.
Proof.
  unfold port_read. case_bool_decide as Hn; [|discriminate].
  intros [= <- <-]. simpl. rewrite length_take, take_drop.
  split; [lia | split; reflexivity].
Qed.

Lemma port_read_ord_inv st x st' :
  port_read_ord st = Return x st' ->
  exists b, x = ord b /\ port_in st = b :: port_in st' /\ st' = set_port_in (port_in st') st.
Proof.
  unfold port_read_ord. destruct (port_in st) as [|b rest] eqn:E; [discriminate|].
  intros [= <- <-]. exists b. simpl. auto.
Qed.

Lemma port_sync_inv st u st' :
  port_sync st = Return u st' ->
  (length (port_in st') <= length (port_in st))%nat /\ st' = set_port_in (port_in st') st.
Proof.
  unfold port_sync. destruct (sync (port_in st) [0; 0; 0; 0]) as [rest|] eqn:E; [|discriminate].
  intros [= <- <-]. simpl. split; [eapply sync_shorter; eassumption | reflexivity].
Qed.

(** What [read_frame] hands over: the byte 165, five header bytes of which
    the last is the payload length, the payload, and the two trailing bytes
    combined big-endian.  Only the line has moved. *)
Lemma read_frame_inv st packet checksum st' :
  read_frame st = Return (packet, checksum) st' ->
  exists hdr payload hi lo,
    length hdr = 5%nat /\
    length payload = Z.to_nat (default 0 (last (ord <$> hdr))) /\
    packet = 165 :: (ord <$> hdr) ++ (ord <$> payload) /\
    checksum = ord hi * 256 + ord lo /\
    st' = set_port_in (port_in st') st /\
    (length (port_in st') + 7 + length payload <= length (port_in st))%nat.
Proof.
  unfold read_frame. intros H.
  bind_inv H. apply port_sync_inv in Hm as [Hlen0 E0].
  bind_inv H. apply port_read_inv in Hm as (Lh & Ph & E1).
  bind_inv H. apply port_read_inv in Hm as (Lp & Pp & E2).
  bind_inv H. apply port_read_ord_inv in Hm as (hi & -> & Phi & E3).
  bind_inv H. apply port_read_ord_inv in Hm as (lo & -> & Plo & E4).
  unfold ret in H. injection H as <- <- <-.
  exists a0, a1, hi, lo.
  assert (Hlast : last ([165] ++ (ord <$> a0)) = last (ord <$> a0)).
  { destruct a0 as [|b0 a0]; [discriminate Lh | reflexivity]. }
  rewrite Hlast in Lp.
  split; [exact Lh|]. split; [exact Lp|]. split; [reflexivity|].
  split; [reflexivity|]. split.
  - rewrite E4 at 1. rewrite E3, E2, E1, E0. reflexivity.
  - assert (Hl : length (port_in s) =
            (length a0 + (length a1 + S (S (length (port_in s3)))))%nat).
    { rewrite Ph, length_app, Pp, length_app, Phi. simpl. rewrite Plo. reflexivity. }
    lia.
Qed.

Lemma sum_nonneg (l : list Z) : Forall (fun x => 0 <= x < 256) l -> 0 <= sum l.
Proof. induction 1; simpl; lia. Qed.

(** ** C1: what [get_packet] validates *)

(** C1, as stated, fails: on the frame below the two trailing bytes hold 33,
    which is the sum of the bytes from the destination byte (15) to the end
    of the (empty) payload, and [get_packet] drops the frame, because its own
    sum starts at the byte 165. *)
Lemma get_packet_rejects_sum_from_destination :
  let st := idle (bytes [255; 0; 255; 165; 0; 15; 16; 2; 0; 0; 33]) in
  read_frame st = Return ([165; 0; 15; 16; 2; 0], 33) (idle []) /\
  33 = sum (drop 2 [165; 0; 15; 16; 2; 0]) mod 65536 /\
  get_packet st = Return [] (idle []).
Proof. vm_compute. auto. Qed.

(** C1, amended: for every frame assembled by the reader, validation
    succeeds (the packet is returned) if and only if the trailing 2-byte
    big-endian value equals the plain sum of all the bytes of the assembled
    packet, from the byte 165 through the last payload byte; otherwise the
    empty list is returned.  The sum is not reduced: it coincides with the sum
    modulo 65536 whenever it is below 65536. *)
Theorem get_packet_checksum st packet checksum st' :
  read_frame st = Return (packet, checksum) st' ->
  (exists body, packet = 165 :: body) /\
  (get_packet st = Return packet st' <-> checksum = sum packet) /\
  (get_packet st = Return [] st' <-> checksum <> sum packet) /\
  (sum packet < 65536 ->
   (get_packet st = Return packet st' <-> checksum = sum packet mod 65536)).
Proof.
  intros H.
  destruct (read_frame_inv _ _ _ _ H) as (hdr & payload & hi & lo & _ & _ & Hp & _).
  assert (Hne : packet <> []) by (rewrite Hp; discriminate).
  assert (Hpos : 0 <= sum packet).
  { apply sum_nonneg. rewrite Hp. constructor; [lia|].
    apply Forall_app. split; apply Forall_ord. }
  assert (Hg : get_packet st =
               if bool_decide (sum packet <> checksum) then Return [] st'
               else Return packet st').
  { unfold get_packet. rewrite (bind_Return _ _ _ _ _ H).
    case_bool_decide; reflexivity. }
  split; [rewrite Hp; eauto|].
  rewrite Hg. case_bool_decide as Hd.
  - split; [|split].
    + split; [intros [= E]; congruence | intros E; congruence].
    + split; [congruence | reflexivity].
    + intros Hlt. rewrite Z.mod_small by lia.
      split; [intros [= E]; congruence | intros E; congruence].
  - split; [|split].
    + split; [congruence | reflexivity].
    + split; [intros [= E]; congruence | intros E; congruence].
    + intros Hlt. rewrite Z.mod_small by lia.
      split; [congruence | reflexivity].
Qed.

Lemma get_packet_checksum_witness :
  let st := idle (frame [165; 0; 15; 16; 2; 0]) in
  (exists body, [165; 0; 15; 16; 2; 0] = 165 :: body) /\
  (get_packet st = Return [165; 0; 15; 16; 2; 0] (idle []) <-> 198 = sum [165; 0; 15; 16; 2; 0]) /\
  (get_packet st = Return [] (idle []) <-> 198 <> sum [165; 0; 15; 16; 2; 0]) /\
  (sum [165; 0; 15; 16; 2; 0] < 65536 ->
   (get_packet st = Return [165; 0; 15; 16; 2; 0] (idle []) <->
    198 = sum [165; 0; 15; 16; 2; 0] mod 65536)).
Proof.
  apply (get_packet_checksum (idle (frame [165; 0; 15; 16; 2; 0]))
           [165; 0; 15; 16; 2; 0] 198 (idle [])).
  vm_compute. reflexivity.
Defined.

(** ** The command frame (C3, C9, C10) *)

Lemma get_feature_name_cases feature name :
  get_feature_name feature = Some name ->
  feature = 1 \/ feature = 2 \/ feature = 3 \/ feature = 4 \/ feature = 5 \/
  feature = 6 \/ feature = 7 \/ feature = 8 \/ feature = 9.
Proof.
  unfold get_feature_name, FeatureName. simpl foldl.
  unfold Feature.POOL, Feature.SPA, Feature.CLEANER, Feature.AIR_BLOWER,
    Feature.SPA_LIGHT, Feature.POOL_LIGHT, Feature.WATER_FEATURE,
    Feature.SPILLWAY, Feature.AUX.
  rewrite !lookup_insert. repeat case_decide; try lia.
  rewrite lookup_empty. discriminate.
Qed.

Lemma py_eqb_on (state : value) :
  py_eqb state (VStr "on") = bool_decide (state = VStr "on").
Proof.
  destruct state as [s|n|b|t]; simpl.
  - destruct (String.eqb_spec s "on") as [->|Hne].
    + symmetry. apply bool_decide_eq_true_2. reflexivity.
    + symmetry. apply bool_decide_eq_false_2. intros [= E]. contradiction.
  - reflexivity.
  - reflexivity.
  - reflexivity.
Qed.

(** C3, as stated, fails: [read_status] takes the destination from
    [packet[2]] and the source from [packet[3]]; read back that way, the
    command frame comes from the remote controller and goes to the main
    controller. *)
Lemma command_frame_source_is_remote :
  let packet := command_packet Feature.POOL (VStr "on") in
  let data := default [] (array_B (command_data Feature.POOL (VStr "on"))) in
  packet !! 3%nat = Some Ctrl.REMOTE /\
  packet !! 2%nat = Some Ctrl.MAIN /\
  Ctrl.REMOTE <> Ctrl.MAIN /\
  read_status_loop 1 None (idle (xff :: data)) =
    Return (packet, VStr "Remote", VStr "Main") (idle []).
Proof. vm_compute. repeat split; discriminate. Qed.

(** C3, amended: for every feature and desired state, the command frame
    built by [send_command] is the two bytes 0, 255, the packet, and two
    checksum bytes; the packet carries the main controller address in the
    destination field ([packet[2]]) and the remote controller address in the
    source field ([packet[3]]), the command code 134, the payload length 2
    and the payload [feature; 1 or 0]; the checksum bytes are the high and low
    byte of the sum of the packet from the byte 165 on, the sum [get_packet]
    compares with. *)
Theorem command_frame_layout (feature : Z) (state : value) (name : string) :
  get_feature_name feature = Some name ->
  let packet := command_packet feature state in
  exists hi lo,
    command_data feature state = [0; 255] ++ packet ++ [hi; lo] /\
    0 <= hi < 256 /\ 0 <= lo < 256 /\
    hi * 256 + lo = sum packet /\
    controller_of <$> packet !! 2%nat = Some (VStr "Main") /\
    controller_of <$> packet !! 3%nat = Some (VStr "Remote") /\
    packet !! 0%nat = Some 165 /\
    packet !! 4%nat = Some 134 /\
    packet !! 5%nat = Some 2 /\
    drop 6 packet = [feature; if bool_decide (state = VStr "on") then 1 else 0].
Proof.
  intros H%get_feature_name_cases packet. subst packet.
  unfold command_data, command_packet. rewrite py_eqb_on.
  exists (Z.quot (sum [165; 31; Ctrl.MAIN; Ctrl.REMOTE; 134; 2; feature;
                       if bool_decide (state = VStr "on") then 1 else 0]) 256),
         (sum [165; 31; Ctrl.MAIN; Ctrl.REMOTE; 134; 2; feature;
               if bool_decide (state = VStr "on") then 1 else 0] mod 256).
  case_bool_decide as Hs;
    destruct H as [->|[->|[->|[->|[->|[->|[->|[->| ->]]]]]]]];
    vm_compute; repeat split; congruence.
Qed.

Lemma command_frame_layout_witness :
  exists hi lo,
    command_data Feature.SPA (VStr "off") =
      [0; 255] ++ command_packet Feature.SPA (VStr "off") ++ [hi; lo] /\
    0 <= hi < 256 /\ 0 <= lo < 256 /\
    hi * 256 + lo = sum (command_packet Feature.SPA (VStr "off")) /\
    controller_of <$> command_packet Feature.SPA (VStr "off") !! 2%nat = Some (VStr "Main") /\
    controller_of <$> command_packet Feature.SPA (VStr "off") !! 3%nat = Some (VStr "Remote") /\
    command_packet Feature.SPA (VStr "off") !! 0%nat = Some 165 /\
    command_packet Feature.SPA (VStr "off") !! 4%nat = Some 134 /\
    command_packet Feature.SPA (VStr "off") !! 5%nat = Some 2 /\
    drop 6 (command_packet Feature.SPA (VStr "off")) =
      [Feature.SPA; if bool_decide (VStr "off" = VStr "on") then 1 else 0].
Proof.
  apply (command_frame_layout Feature.SPA (VStr "off") "spa"). reflexivity.
Defined.

Lemma array_B_command_data (feature : Z) (state : value) (name : string) :
  get_feature_name feature = Some name ->
  exists data, array_B (command_data feature state) = Some data.
Proof.
  intros H%get_feature_name_cases.
  unfold command_data, command_packet.
  destruct (py_eqb state (VStr "on"));
    destruct H as [->|[->|[->|[->|[->|[->|[->|[->| ->]]]]]]]];
    eexists; vm_compute; reflexivity.
Qed.

(** C9: for every feature and desired state, the bytes [send_command]
    transmits, read back by [get_packet] behind the byte 255 that completes
    the preamble, are assembled into the command packet with a transmitted
    checksum equal to the sum the reader recomputes, so the packet is
    returned, not dropped. *)
Theorem command_round_trip (feature : Z) (state : value) (name : string) :
  get_feature_name feature = Some name ->
  exists data,
    array_B (command_data feature state) = Some data /\
    forall st rest,
      read_frame (set_port_in (xff :: data ++ rest) st) =
        Return (command_packet feature state, sum (command_packet feature state))
               (set_port_in rest st) /\
      get_packet (set_port_in (xff :: data ++ rest) st) =
        Return (command_packet feature state) (set_port_in rest st).
Proof.
  intros H%get_feature_name_cases.
  unfold command_data, command_packet.
  destruct (py_eqb state (VStr "on"));
    destruct H as [->|[->|[->|[->|[->|[->|[->|[->| ->]]]]]]]];
    (eexists; split; [vm_compute; reflexivity|];
     intros st rest; split; vm_compute; reflexivity).
Qed.

Lemma command_round_trip_witness :
  exists data,
    array_B (command_data Feature.POOL (VStr "on")) = Some data /\
    forall st rest,
      read_frame (set_port_in (xff :: data ++ rest) st) =
        Return (command_packet Feature.POOL (VStr "on"),
                sum (command_packet Feature.POOL (VStr "on")))
               (set_port_in rest st) /\
      get_packet (set_port_in (xff :: data ++ rest) st) =
        Return (command_packet Feature.POOL (VStr "on")) (set_port_in rest st).
Proof.
  apply (command_round_trip Feature.POOL (VStr "on") "pool"). reflexivity.
Defined.

(** C10: for every call of [send_command] with a known feature, the bytes
    written first are the command frame, and the state byte in it (the tenth
    byte written, the last of the packet) is 1 exactly when the [state]
    argument is the string "on", and 0 for every other value; the integer 1
    and the boolean [True] are encoded as 0. *)
Theorem send_command_state_byte (background : PentairCom -> option PentairCom)
    (feature : Z) (state : value) (name : string) (st : PentairCom) :
  get_feature_name feature = Some name ->
  exists data,
    array_B (command_data feature state) = Some data /\
    send_command background feature state st =
      send_command_confirm background name state data
        (set_port_out (port_out st ++ [data]) st) /\
    command_packet feature state !! 7%nat =
      Some (if bool_decide (state = VStr "on") then 1 else 0) /\
    data !! 9%nat = Some (if bool_decide (state = VStr "on") then x01 else x00) /\
    command_packet feature (VInt 1) !! 7%nat = Some 0 /\
    command_packet feature (VBool true) !! 7%nat = Some 0.
Proof.
  intros Hname.
  destruct (array_B_command_data feature state name Hname) as (data & Hdata).
  exists data. split; [exact Hdata|]. split.
  - unfold send_command, bind, lift. rewrite Hname, Hdata. reflexivity.
  - apply get_feature_name_cases in Hname.
    revert Hdata. unfold command_data, command_packet. rewrite py_eqb_on.
    case_bool_decide as Hs;
      destruct Hname as [->|[->|[->|[->|[->|[->|[->|[->| ->]]]]]]]];
      vm_compute; intros [= <-]; repeat split; reflexivity.
Qed.

Lemma send_command_state_byte_witness :
  exists data,
    array_B (command_data Feature.SPA (VInt 1)) = Some data /\
    send_command run_pass Feature.SPA (VInt 1) (idle []) =
      send_command_confirm run_pass "spa" (VInt 1) data
        (set_port_out (port_out (idle []) ++ [data]) (idle [])) /\
    command_packet Feature.SPA (VInt 1) !! 7%nat =
      Some (if bool_decide (VInt 1 = VStr "on") then 1 else 0) /\
    data !! 9%nat = Some (if bool_decide (VInt 1 = VStr "on") then x01 else x00) /\
    command_packet Feature.SPA (VInt 1) !! 7%nat = Some 0 /\
    command_packet Feature.SPA (VBool true) !! 7%nat = Some 0.
Proof.
  apply (send_command_state_byte run_pass Feature.SPA (VInt 1) "spa" (idle [])).
  reflexivity.
Defined.

(** ** The decoder *)

Lemma bind_assoc {A B C} (m : M A) (f : A -> M B) (g : B -> M C) st :
  bind (bind m f) g st = bind m (fun x => bind (f x) g) st.
Proof. unfold bind. destruct (m st); reflexivity. Qed.

Lemma bind_item {B} (packet : list Z) (i : nat) (x : Z) (k : Z -> M B) st :
  packet !! i = Some x -> bind (item packet i) k st = k x st.
Proof. intros H. unfold bind, item, lift. rewrite H. reflexivity. Qed.

Lemma bind_store {B} (key : string) (v : value) (k : unit -> M B) st :
  bind (store key v) k st = k tt (set_status (<[key := v]> (status st)) st).
Proof. reflexivity. Qed.

Lemma bind_now {B} (k : Z -> M B) st :
  bind now k st = k (clock st (tick st)) (set_tick (S (tick st)) st).
Proof. reflexivity. Qed.

(** The rendering of a byte has eight characters, the most significant bit
    first; checked on the 256 bytes. *)
Lemma format_08b_bit (e : Z) (i : nat) :
  0 <= e < 256 -> (i < 8)%nat ->
  int_of_str (slice (format_08b e) i (S i)) ≫= state_name =
    Some (on_off (Z.testbit e (7 - Z.of_nat i))).
Proof.
  intros He Hi.
  assert (Hall : Forall (fun e => Forall (fun i =>
            int_of_str (slice (format_08b e) i (S i)) ≫= state_name =
              Some (on_off (Z.testbit e (7 - Z.of_nat i)))) (seq 0 8)) (seqZ 0 256)).
  { apply (bool_decide_unpack _). vm_compute. exact I. }
  rewrite Forall_forall in Hall.
  specialize (Hall e). rewrite Forall_forall in Hall.
  apply Hall.
  - apply elem_of_seqZ. lia.
  - apply elem_of_seq. lia.
Qed.

Lemma bind_state_of_bit {B} (e : Z) (i : nat) (k : value -> M B) st :
  0 <= e < 256 -> (i < 8)%nat ->
  bind (state_of_bit (format_08b e) i (S i)) k st =
    k (VStr (on_off (Z.testbit e (7 - Z.of_nat i)))) st.
Proof.
  intros He Hi. pose proof (format_08b_bit e i He Hi) as H.
  unfold state_of_bit, bind, lift, ret, raise.
  destruct (int_of_str (slice (format_08b e) i (S i))) as [n|]; [|discriminate H].
  simpl in H. rewrite H. reflexivity.
Qed.

(** Lines 196-212 on a packet long enough to hold equipment bytes: the
    thirteen assignments happen, then the temperatures are tried. *)
Lemma read_status_decode_long packet src dst st n h m e1 e2 :
  packet !! 5%nat = Some n -> 8 < n ->
  packet !! 6%nat = Some h -> packet !! 7%nat = Some m ->
  packet !! 8%nat = Some e1 -> packet !! 9%nat = Some e2 ->
  0 <= e1 < 256 -> 0 <= e2 < 256 ->
  read_status_decode packet src dst st =
    match read_status_temps packet
            (set_status
               (assign_all (decoded_fields (clock st (tick st)) src dst h m e1 e2)
                           (status st))
               (set_tick (S (tick st)) st)) with
    | Return _ s => Return (status s) (set_ready true s)
    | Raise e s => Raise e s
    | Blocked s => Blocked s
    end.
Proof.
  intros H5 Hn H6 H7 H8 H9 He1 He2.
  unfold read_status_decode, Equip1, Equip2.
  rewrite (bind_item _ _ _ _ _ H5). cbv beta.
  rewrite bool_decide_eq_true_2 by exact Hn.
  rewrite bind_assoc, (bind_item _ _ _ _ _ H8). cbv beta.
  rewrite bind_assoc, (bind_item _ _ _ _ _ H9). cbv beta.
  rewrite bind_assoc, bind_now. cbv beta.
  do 3 (rewrite bind_assoc, bind_store; cbv beta).
  rewrite bind_assoc, (bind_item _ _ _ _ _ H6). cbv beta.
  rewrite bind_assoc, (bind_item _ _ _ _ _ H7). cbv beta.
  rewrite bind_assoc, bind_store. cbv beta.
  do 8 (rewrite bind_assoc, (bind_state_of_bit e1) by (assumption || lia);
        cbv beta; rewrite bind_assoc, bind_store; cbv beta).
  rewrite bind_assoc, (bind_state_of_bit e2) by (assumption || lia).
  cbv beta. rewrite bind_assoc, bind_store. cbv beta.
  unfold bind, ret. reflexivity.
Qed.

(** Lines 196-197 and 217-219 on a packet declaring at most 8 payload
    bytes: nothing is decoded, the flag is set. *)
Lemma read_status_decode_short packet src dst st n :
  packet !! 5%nat = Some n -> n <= 8 ->
  read_status_decode packet src dst st = Return (status st) (set_ready true st).
Proof.
  intros H5 Hn. unfold read_status_decode.
  rewrite (bind_item _ _ _ _ _ H5). cbv beta.
  rewrite bool_decide_eq_false_2 by lia. reflexivity.
Qed.

(** Lines 213-216 touch only the two temperature keys, end in a state that
    differs from the start in the dictionary only, and raise [IndexError]
    exactly when the packet has 20 or 24 items. *)
Lemma read_status_temps_spec packet st :
  exists d,
    final (read_status_temps packet st) = set_status d st /\
    (forall key, key <> "water_temp"%string -> key <> "air_temp"%string ->
                 d !! key = status st !! key) /\
    match read_status_temps packet st with
    | Return _ _ => length packet <> 20%nat /\ length packet <> 24%nat
    | Raise e _ => e = IndexError /\ (length packet = 20%nat \/ length packet = 24%nat)
    | Blocked _ => False
    end.
Proof.
  destruct st as [line out d0 r c t].
  unfold read_status_temps, WaterTemp, AirTemp, bind, item, lift, store, ret, raise.
  destruct (packet !! 20%nat) as [w|] eqn:E20;
    [apply lookup_lt_Some in E20 | apply lookup_ge_None in E20];
  (destruct (packet !! 24%nat) as [a|] eqn:E24;
    [apply lookup_lt_Some in E24 | apply lookup_ge_None in E24]);
  repeat case_bool_decide; simpl; try lia;
  eexists; (split; [reflexivity|]); simpl;
  (split; [intros key K1 K2; rewrite ?lookup_insert_ne by congruence; reflexivity
          | first [lia | split; [reflexivity | lia]]]).
Qed.

Lemma get_packet_is_frame st packet st' :
  get_packet st = Return packet st' -> packet = [] \/ is_frame packet.
Proof.
  unfold get_packet. intros H. bind_inv H. destruct a as [p c].
  destruct (read_frame_inv _ _ _ _ Hm) as (hdr & payload & hi & lo & Lh & Lp & -> & _).
  revert H. case_bool_decide as Hd; intros [= <- <-]; [left; reflexivity|].
  right. split.
  - constructor; [lia|]. apply Forall_app. split; apply Forall_ord.
  - destruct hdr as [|b0 [|b1 [|b2 [|b3 [|b4 [|b5 hdr]]]]]]; try discriminate Lh.
    simpl in *. rewrite length_fmap, Lp. reflexivity.
Qed.

Lemma final_flagged (o : outcome unit) :
  status (final (match o with
                 | Return _ s => Return (status s) (set_ready true s)
                 | Raise e s => Raise e s
                 | Blocked s => Blocked s
                 end)) = status (final o).
Proof. destruct o; reflexivity. Qed.

(** After decoding a packet with equipment bytes, every key other than the
    temperatures holds what lines 200-212 assigned, whether or not the
    temperatures could be read. *)
Lemma read_status_decode_fields packet src dst st n h m e1 e2 key :
  packet !! 5%nat = Some n -> 8 < n ->
  packet !! 6%nat = Some h -> packet !! 7%nat = Some m ->
  packet !! 8%nat = Some e1 -> packet !! 9%nat = Some e2 ->
  0 <= e1 < 256 -> 0 <= e2 < 256 ->
  key <> "water_temp"%string -> key <> "air_temp"%string ->
  status (final (read_status_decode packet src dst st)) !! key =
    assign_all (decoded_fields (clock st (tick st)) src dst h m e1 e2) (status st) !! key.
Proof.
  intros H5 Hn H6 H7 H8 H9 He1 He2 K1 K2.
  rewrite (read_status_decode_long _ _ _ _ _ _ _ _ _ H5 Hn H6 H7 H8 H9 He1 He2).
  rewrite final_flagged.
  match goal with
  | |- context [read_status_temps packet ?s] =>
      destruct (read_status_temps_spec packet s) as (d & -> & Hkeep & _)
  end.
  simpl. apply Hkeep; assumption.
Qed.

Lemma is_frame_items packet n :
  is_frame packet -> packet !! 5%nat = Some n -> 8 < n ->
  exists h m e1 e2,
    packet !! 6%nat = Some h /\ packet !! 7%nat = Some m /\
    packet !! 8%nat = Some e1 /\ packet !! 9%nat = Some e2 /\
    0 <= e1 < 256 /\ 0 <= e2 < 256 /\ (15 <= length packet)%nat.
Proof.
  intros [Hb Hl] H5 Hn. rewrite H5 in Hl. simpl in Hl.
  assert (Hlen : (15 <= length packet)%nat) by lia.
  destruct (lookup_lt_is_Some_2 packet 6) as [h Hh]; [lia|].
  destruct (lookup_lt_is_Some_2 packet 7) as [m Hm]; [lia|].
  destruct (lookup_lt_is_Some_2 packet 8) as [e1 H8]; [lia|].
  destruct (lookup_lt_is_Some_2 packet 9) as [e2 H9]; [lia|].
  exists h, m, e1, e2. repeat split; try assumption;
    try (eapply (Forall_lookup_1 _ _ _ _ Hb H8));
    try (eapply (Forall_lookup_1 _ _ _ _ Hb H9)).
Qed.

Ltac read_assigned :=
  unfold assign_all, decoded_fields; cbn [foldl fst snd];
  rewrite ?lookup_insert_ne by discriminate;
  rewrite lookup_insert_eq; reflexivity.

(** ** C5: the bit table *)

(** C5: for every validated status frame whose declared payload length
    exceeds 8, with [e1 = packet[8]] and [e2 = packet[9]], the decoder stores
    spillway from the most significant bit of [e1] (bit 0 of the rendered
    string), then water_feature, pool, pool_light, spa_light, air_blower,
    cleaner, and spa from its least significant bit (bit 7 of the string),
    and aux from the least significant bit of [e2]; with
    [e1 = 0b10100001] spillway, pool and spa are on and the five other
    features of that byte are off. *)
Theorem read_status_bit_table packet src dst st n :
  is_frame packet -> packet !! 5%nat = Some n -> 8 < n ->
  exists e1 e2,
    packet !! 8%nat = Some e1 /\ packet !! 9%nat = Some e2 /\
    let d := status (final (read_status_decode packet src dst st)) in
    d !! "spillway" = Some (VStr (on_off (Z.testbit e1 7))) /\
    d !! "water_feature" = Some (VStr (on_off (Z.testbit e1 6))) /\
    d !! "pool" = Some (VStr (on_off (Z.testbit e1 5))) /\
    d !! "pool_light" = Some (VStr (on_off (Z.testbit e1 4))) /\
    d !! "spa_light" = Some (VStr (on_off (Z.testbit e1 3))) /\
    d !! "air_blower" = Some (VStr (on_off (Z.testbit e1 2))) /\
    d !! "cleaner" = Some (VStr (on_off (Z.testbit e1 1))) /\
    d !! "spa" = Some (VStr (on_off (Z.testbit e1 0))) /\
    d !! "aux" = Some (VStr (on_off (Z.testbit e2 0))) /\
    (e1 = 0xa1 ->
     d !! "spillway" = Some (VStr "on") /\
     d !! "pool" = Some (VStr "on") /\
     d !! "spa" = Some (VStr "on") /\
     d !! "water_feature" = Some (VStr "off") /\
     d !! "pool_light" = Some (VStr "off") /\
     d !! "spa_light" = Some (VStr "off") /\
     d !! "air_blower" = Some (VStr "off") /\
     d !! "cleaner" = Some (VStr "off")).
Proof.
  intros Hf H5 Hn.
  destruct (is_frame_items packet n Hf H5 Hn)
    as (h & m & e1 & e2 & H6 & H7 & H8 & H9 & He1 & He2 & _).
  exists e1, e2. split; [exact H8|]. split; [exact H9|]. cbv zeta.
  assert (Hkey : forall key, key <> "water_temp"%string -> key <> "air_temp"%string ->
            status (final (read_status_decode packet src dst st)) !! key =
            assign_all (decoded_fields (clock st (tick st)) src dst h m e1 e2)
                       (status st) !! key).
  { intros key K1 K2.
    apply (read_status_decode_fields _ _ _ _ _ _ _ _ _ _ H5 Hn H6 H7 H8 H9 He1 He2 K1 K2). }
  assert (Hsp : status (final (read_status_decode packet src dst st)) !! "spillway"
                = Some (VStr (on_off (Z.testbit e1 7))))
    by (rewrite Hkey by discriminate; read_assigned).
  assert (Hwf : status (final (read_status_decode packet src dst st)) !! "water_feature"
                = Some (VStr (on_off (Z.testbit e1 6))))
    by (rewrite Hkey by discriminate; read_assigned).
  assert (Hpo : status (final (read_status_decode packet src dst st)) !! "pool"
                = Some (VStr (on_off (Z.testbit e1 5))))
    by (rewrite Hkey by discriminate; read_assigned).
  assert (Hpl : status (final (read_status_decode packet src dst st)) !! "pool_light"
                = Some (VStr (on_off (Z.testbit e1 4))))
    by (rewrite Hkey by discriminate; read_assigned).
  assert (Hsl : status (final (read_status_decode packet src dst st)) !! "spa_light"
                = Some (VStr (on_off (Z.testbit e1 3))))
    by (rewrite Hkey by discriminate; read_assigned).
  assert (Hab : status (final (read_status_decode packet src dst st)) !! "air_blower"
                = Some (VStr (on_off (Z.testbit e1 2))))
    by (rewrite Hkey by discriminate; read_assigned).
  assert (Hcl : status (final (read_status_decode packet src dst st)) !! "cleaner"
                = Some (VStr (on_off (Z.testbit e1 1))))
    by (rewrite Hkey by discriminate; read_assigned).
  assert (Hspa : status (final (read_status_decode packet src dst st)) !! "spa"
                = Some (VStr (on_off (Z.testbit e1 0))))
    by (rewrite Hkey by discriminate; read_assigned).
  assert (Hax : status (final (read_status_decode packet src dst st)) !! "aux"
                = Some (VStr (on_off (Z.testbit e2 0))))
    by (rewrite Hkey by discriminate; read_assigned).
  repeat (split; [assumption|]).
  intros ->. rewrite Hsp, Hpo, Hspa, Hwf, Hpl, Hsl, Hab, Hcl.
  repeat split; reflexivity.
Qed.

Lemma read_status_bit_table_witness :
  let d := status (final (read_status_decode (status_body 0xa1 0 25)
                            (VStr "Main") (VStr "Broadcast") (idle []))) in
  d !! "spillway" = Some (VStr "on") /\
  d !! "pool" = Some (VStr "on") /\
  d !! "spa" = Some (VStr "on") /\
  d !! "water_feature" = Some (VStr "off") /\
  d !! "pool_light" = Some (VStr "off") /\
  d !! "spa_light" = Some (VStr "off") /\
  d !! "air_blower" = Some (VStr "off") /\
  d !! "cleaner" = Some (VStr "off").
Proof.
  assert (Hf : is_frame (status_body 0xa1 0 25))
    by (apply (bool_decide_unpack _); vm_compute; exact I).
  assert (Hn : 8 < 29) by lia.
  destruct (read_status_bit_table (status_body 0xa1 0 25) (VStr "Main")
              (VStr "Broadcast") (idle []) 29 Hf eq_refl Hn)
    as (e1 & e2 & H8 & _ & H).
  injection H8 as <-.
  apply H. reflexivity.
Defined.

(** ** C4: the temperatures *)

(** A decoded packet of exactly 20 or 24 items always ends in [IndexError]:
    the guards of lines 213 and 215 admit the index one past the end. *)
Lemma read_status_decode_index_error packet src dst st n :
  is_frame packet -> packet !! 5%nat = Some n -> 8 < n ->
  length packet = 20%nat \/ length packet = 24%nat ->
  exists st', read_status_decode packet src dst st = Raise IndexError st' /\
              ready st' = ready st.
Proof.
  intros Hf H5 Hn Hlen.
  destruct (is_frame_items packet n Hf H5 Hn)
    as (h & m & e1 & e2 & H6 & H7 & H8 & H9 & He1 & He2 & _).
  rewrite (read_status_decode_long _ _ _ _ _ _ _ _ _ H5 Hn H6 H7 H8 H9 He1 He2).
  match goal with
  | |- context [read_status_temps packet ?s] =>
      destruct (read_status_temps_spec packet s) as (d & Hfin & _ & Hout)
  end.
  destruct (read_status_temps packet _) as [u s|e s|s].
  - destruct Hout as [L20 L24]. destruct Hlen; contradiction.
  - destruct Hout as [-> _]. exists s. split; [reflexivity|].
    simpl in Hfin. rewrite Hfin. reflexivity.
  - contradiction.
Qed.

(** C4 does not hold of the code: a validated broadcast status frame of 14
    payload bytes (checksum 1114, the bytes 4 and 90) gives a packet of
    exactly 20 items; the guard
    [len(packet) >= 20] lets [packet[20]] be read, which raises [IndexError]
    after the equipment fields were stored and before the flag is set.  The
    reading thread dies, so [run_pass] never hands a state back. *)
Theorem read_status_index_error_at_length_20 :
  let st := idle (frame (status_body 0xa1 0 10)) in
  port_in st = bytes [255; 0; 255; 165; 1; 15; 16; 2; 14; 10; 30; 161; 0;
                      70; 70; 70; 70; 70; 70; 70; 70; 70; 70; 4; 90] /\
  length (status_body 0xa1 0 10) = 20%nat /\
  get_packet st = Return (status_body 0xa1 0 10) (idle []) /\
  run_pass st = None /\
  exists st',
    read_status (Some Ctrl.BROADCAST) st = Raise IndexError st' /\
    status st' !! "pool" = Some (VStr "on") /\
    status st' !! "water_temp" = None /\
    ready st' = false.
Proof.
  vm_compute. repeat split. eexists. repeat split.
Qed.

(** ** The reading loop *)

Lemma bind_ext {A B} (m : M A) (k1 k2 : A -> M B) st :
  (forall a s, m st = Return a s -> k1 a s = k2 a s) ->
  bind m k1 st = bind m k2 st.
Proof.
  intros H. unfold bind. destruct (m st) as [a s|e s|s]; auto.
Qed.

Lemma item_inv packet i st x s :
  item packet i st = Return x s -> s = st /\ packet !! i = Some x.
Proof.
  unfold item, lift. destruct (packet !! i) as [y|]; [|discriminate].
  intros [= <- <-]. auto.
Qed.

(** [get_packet] moves the line forward and touches nothing else. *)
Lemma get_packet_consumes st packet st' :
  get_packet st = Return packet st' ->
  st' = set_port_in (port_in st') st /\
  (length (port_in st') < length (port_in st))%nat.
Proof.
  unfold get_packet. intros H. bind_inv H. destruct a as [p c].
  destruct (read_frame_inv _ _ _ _ Hm) as (hdr & payload & hi & lo & _ & _ & _ & _ & E & L).
  assert (s = st') as ->.
  { revert H. case_bool_decide; intros [= _ <-]; reflexivity. }
  split; [exact E | lia].
Qed.

Lemma read_status_pump_line packet src st u s :
  read_status_pump packet src st = Return u s -> port_in s = port_in st.
Proof.
  unfold read_status_pump.
  destruct (py_eqb src (VStr "Pump1")); [|intros [= _ <-]; reflexivity].
  unfold bind, item, lift, store, ret, raise.
  destruct (packet !! 4%nat) as [cmd|]; [|discriminate].
  destruct (bool_decide (cmd = 7) && bool_decide (length packet = 21%nat));
    [|intros [= _ <-]; reflexivity].
  destruct (packet !! 9%nat), (packet !! 10%nat), (packet !! 11%nat),
    (packet !! 12%nat); try discriminate.
  intros [= _ <-]. reflexivity.
Qed.

(** Any two supplies of turns larger than the number of bytes left give the
    same run of the loop: the supply is never what stops it. *)
Lemma read_status_loop_turns (t1 : nat) :
  forall t2 controller st,
    (length (port_in st) < t1)%nat -> (length (port_in st) < t2)%nat ->
    read_status_loop t1 controller st = read_status_loop t2 controller st.
Proof.
  induction t1 as [|t1 IH]; intros t2 controller st H1 H2; [lia|].
  destruct t2 as [|t2]; [lia|].
  cbn [read_status_loop].
  apply bind_ext. intros packet s Hg.
  apply get_packet_consumes in Hg as [_ Hlen].
  case_bool_decide as Hp; [|apply IH; lia].
  apply bind_ext. intros dst s1 [-> _]%item_inv.
  apply bind_ext. intros src s2 [-> _]%item_inv.
  apply bind_ext. intros u s3 Hpump%read_status_pump_line.
  cbn [andb].
  destruct (bool_decide (controller = None) || bool_decide (dst = Ctrl.BROADCAST));
    [reflexivity|].
  apply IH; rewrite Hpump; lia.
Qed.

(** ** A frame with a bad checksum *)

(** A corrupted frame followed by a valid one, run through [read_status]: the
    corrupted frame leaves no trace and the frame behind it is decoded. *)
Example bad_frame_then_good_frame :
  let good := frame (status_body 0xa1 0 25) in
  let st := idle (bytes [255; 0; 255; 165; 0; 15; 16; 2; 0; 0; 199] ++ good) in
  exists d st',
    read_status (Some Ctrl.BROADCAST) st = Return d st' /\
    d !! "pool" = Some (VStr "on") /\ d !! "cleaner" = Some (VStr "off") /\
    d !! "time" = Some (VStr "10:30") /\ d !! "water_temp" = Some (VInt 70) /\
    port_in st' = [] /\ ready st' = true.
Proof. vm_compute. eexists _, _. repeat split. Qed.

(** ** The freshness flag *)

Lemma read_status_loop_is_frame (turns : nat) :
  forall controller st packet src dst st1,
    read_status_loop turns controller st = Return (packet, src, dst) st1 ->
    is_frame packet.
Proof.
  induction turns as [|turns IH]; intros controller st packet src dst st1 H;
    [discriminate H|].
  cbn [read_status_loop] in H. bind_inv H.
  revert H. case_bool_decide as Hp; intros H; [|eapply IH; exact H].
  bind_inv H. bind_inv H. bind_inv H. cbn [andb] in H.
  destruct (bool_decide (controller = None) || bool_decide (a0 = Ctrl.BROADCAST));
    [|eapply IH; exact H].
  injection H as <- _ _ _.
  destruct (get_packet_is_frame _ _ _ Hm) as [->|Hf]; [simpl in Hp; lia | exact Hf].
Qed.

(** C7, as stated, fails: a broadcast frame declaring 2 payload bytes is
    accepted by the loop, nothing is decoded from it, and the pass still sets
    the flag.  A caller that cleared the flag and waited for this pass comes
    back from [get_status] with the flag set and the snapshot it had before. *)
Lemma fresh_flag_with_unchanged_snapshot :
  let st := set_status {[ "pool"%string := VStr "off" ]}
              (idle (frame [165; 1; 15; 16; 2; 2; 10; 30])) in
  exists st',
    read_status (Some Ctrl.BROADCAST) (set_ready false st) = Return (status st) st' /\
    get_status run_pass st = Return (status st) st' /\
    ready st' = true /\
    status st' = status st.
Proof. vm_compute. eexists. repeat split. Qed.

(** ** The dispatcher (C2, C6) *)

Lemma send_command_unfold background feature state name data st :
  get_feature_name feature = Some name ->
  array_B (command_data feature state) = Some data ->
  send_command background feature state st =
    send_command_confirm background name state data
      (set_port_out (port_out st ++ [data]) st).
Proof.
  intros Hname Hdata. unfold send_command, bind, lift. rewrite Hname, Hdata. reflexivity.
Qed.

(** [start] is the first reading of the clock after the write. *)
Lemma send_command_await_start background name state data st start retry st1 :
  send_command_await background name state data st = Return (start, retry) st1 ->
  start = clock st (tick st).
Proof.
  unfold send_command_await. rewrite bind_now. cbv beta. intros H.
  bind_inv H. bind_inv H. bind_inv H. injection H as <- _ _. reflexivity.
Qed.

Lemma send_command_finish_spec start st :
  send_command_finish start st =
    if bool_decide (timeout * 1000000 < clock st (tick st) - start)
    then Raise AssertionError (set_tick (S (tick st)) st)
    else Return (status st) (set_tick (S (S (tick st))) st).
Proof.
  unfold send_command_finish. rewrite bind_now. cbv beta.
  unfold total_seconds_gt. case_bool_decide; reflexivity.
Qed.

(** C2, as stated, fails: the clock is not read while the call retries or
    waits.  On a line with a single frame reporting pool off, the thread's own
    reading of the clock when it decodes that frame is already 6 seconds past
    [start]; five retries are left, and the call does not fail: it writes the
    frame a second time and waits for ever.  On a line with six such frames
    the call does raise, but only once all retries are used, after six
    writes. *)
Lemma send_command_retries_past_timeout :
  let off := frame (status_body 0 0 25) in
  let data := default [] (array_B (command_data Feature.POOL (VStr "on"))) in
  (exists st',
     send_command run_pass Feature.POOL (VStr "on") (at_pace 6000000 off) = Blocked st' /\
     clock st' 0%nat = 0 /\
     status st' !! "last_update" = Some (VTime 6000000) /\
     status st' !! "pool" = Some (VStr "off") /\
     port_out st' = [data; data]) /\
  (exists st',
     send_command run_pass Feature.POOL (VStr "on")
       (at_pace 6000000 (off ++ off ++ off ++ off ++ off ++ off))
       = Raise AssertionError st' /\
     port_out st' = [data; data; data; data; data; data]).
Proof. vm_compute. split; eexists; repeat split. Qed.

(** C2, amended: for every call of [send_command] whose first wait and
    retry loop come to an end, whatever number of retries is then left, if the
    time elapsed since the reading taken right after the first write exceeds
    5 seconds at the check that follows the loop, the call raises
    [AssertionError]. *)
Theorem send_command_timeout background feature state name data st start retry st1 :
  get_feature_name feature = Some name ->
  array_B (command_data feature state) = Some data ->
  send_command_await background name state data
    (set_port_out (port_out st ++ [data]) st) = Return (start, retry) st1 ->
  timeout * 1000000 < clock st1 (tick st1) - start ->
  start = clock st (tick st) /\
  send_command background feature state st =
    Raise AssertionError (set_tick (S (tick st1)) st1).
Proof.
  intros Hname Hdata Hawait Hlate. split.
  - apply send_command_await_start in Hawait. exact Hawait.
  - rewrite (send_command_unfold _ _ _ _ _ _ Hname Hdata).
    unfold send_command_confirm. rewrite (bind_Return _ _ _ _ _ Hawait).
    rewrite send_command_finish_spec.
    rewrite bool_decide_eq_true_2 by exact Hlate. reflexivity.
Qed.

Lemma send_command_timeout_witness :
  let st := at_pace 6000000 (frame (status_body 0x20 0 25)) in
  let data := default [] (array_B (command_data Feature.SPA (VStr "off"))) in
  let st1 := final (send_command_await run_pass "spa" (VStr "off") data
                      (set_port_out (port_out st ++ [data]) st)) in
  0 = clock st (tick st) /\
  send_command run_pass Feature.SPA (VStr "off") st =
    Raise AssertionError (set_tick (S (tick st1)) st1).
Proof.
  apply (send_command_timeout run_pass Feature.SPA (VStr "off") "spa"
           (default [] (array_B (command_data Feature.SPA (VStr "off"))))
           (at_pace 6000000 (frame (status_body 0x20 0 25))) 0 5%nat).
  - reflexivity.
  - reflexivity.
  - vm_compute. reflexivity.
  - vm_compute. reflexivity.
Defined.

(** C6, as stated, fails: the first awaited snapshot reports pool on, as
    asked, after a single write, and the call still raises, because 12
    seconds have passed on the clock when the loop is over. *)
Lemma send_command_confirmed_but_late :
  let st := at_pace 6000000 (frame (status_body 0x20 0 25)) in
  exists st',
    send_command run_pass Feature.POOL (VStr "on") st = Raise AssertionError st' /\
    status st' !! "pool" = Some (VStr "on") /\
    length (port_out st') = 1%nat.
Proof. vm_compute. eexists. repeat split. Qed.

(** C6, amended: for every call of [send_command] in which the loop is left
    with the target feature reported equal to the desired state, and no more
    than 5 seconds have passed at the check that follows the loop, the call
    returns the store itself, with all its fields.  When it is the first
    awaited snapshot that reports the desired state, the loop is left at once,
    with the five retries unused and nothing written after the first write. *)
Theorem send_command_confirmed background feature state name data st :
  get_feature_name feature = Some name ->
  array_B (command_data feature state) = Some data ->
  let st0 := set_port_out (port_out st ++ [data]) st in
  (forall start retry st1 v,
     send_command_await background name state data st0 = Return (start, retry) st1 ->
     status st1 !! name = Some v -> py_eqb v state = true ->
     clock st1 (tick st1) - start <= timeout * 1000000 ->
     let st2 := set_tick (S (S (tick st1))) st1 in
     send_command background feature state st = Return (status st2) st2 /\
     status st2 !! name = Some v) /\
  (forall st1 v,
     background (set_ready false (set_tick (S (tick st0)) st0)) = Some st1 ->
     ready st1 = true ->
     status st1 !! name = Some v -> py_eqb v state = true ->
     send_command_await background name state data st0 =
       Return (clock st (tick st), 5%nat) st1).
Proof.
  intros Hname Hdata st0. split.
  - intros start retry st1 v Hawait Hv _ Hfast st2. split; [|exact Hv].
    rewrite (send_command_unfold _ _ _ _ _ _ Hname Hdata). fold st0.
    unfold send_command_confirm. rewrite (bind_Return _ _ _ _ _ Hawait).
    rewrite send_command_finish_spec.
    rewrite bool_decide_eq_false_2 by lia. reflexivity.
  - intros st1 v Hbg Hready Hv Heq.
    unfold send_command_await. rewrite bind_now. cbv beta.
    assert (Hget : get_status background (set_tick (S (tick st0)) st0) =
                   Return (status st1) st1).
    { unfold get_status. rewrite Hbg, Hready. reflexivity. }
    rewrite (bind_Return _ _ _ _ _ Hget).
    assert (Hfetch : fetch name st1 = Return v st1).
    { unfold fetch, lift. rewrite Hv. reflexivity. }
    rewrite (bind_Return _ _ _ _ _ Hfetch).
    cbn [send_command_loop]. rewrite bind_assoc, (bind_Return _ _ _ _ _ Hfetch).
    rewrite Heq. reflexivity.
Qed.

(** The scenario of C6 on a live clock: the reading thread decodes one
    broadcast frame with the pool bit set while the caller waits. *)
Lemma send_command_confirmed_witness :
  let st := at_pace 1000 (frame (status_body 0x20 0 25)) in
  let data := default [] (array_B (command_data Feature.POOL (VStr "on"))) in
  exists st',
    send_command run_pass Feature.POOL (VStr "on") st = Return (status st') st' /\
    status st' !! "pool" = Some (VStr "on") /\
    status st' !! "spa" = Some (VStr "off") /\
    status st' !! "time" = Some (VStr "10:30") /\
    port_out st' = [data].
Proof.
  intros st data.
  pose (st0 := set_port_out (port_out st ++ [data]) st).
  pose (st1 := final (get_status run_pass (set_tick (S (tick st0)) st0))).
  destruct (send_command_confirmed run_pass Feature.POOL (VStr "on") "pool" data st
              eq_refl eq_refl) as [HA HB].
  assert (Hawait : send_command_await run_pass "pool" (VStr "on") data st0 =
                   Return (clock st (tick st), 5%nat) st1).
  { apply (HB st1 (VStr "on")); vm_compute; reflexivity. }
  assert (Hfast : clock st1 (tick st1) - clock st (tick st) <= timeout * 1000000)
    by (vm_compute; discriminate).
  destruct (HA _ _ st1 (VStr "on") Hawait eq_refl eq_refl Hfast) as [Hret Hpool].
  exists (set_tick (S (S (tick st1))) st1).
  split; [exact Hret|]. split; [exact Hpool|].
  vm_compute. repeat split.
Defined.

(** * Further properties of the code *)

(** ** [get_feature_name] *)

(** X1: [get_feature_name] inverts the class dictionary [FeatureName]: it
    returns [name] for [feature] exactly when [FeatureName] maps [name] to
    [feature], and it raises [KeyError] (here [None]) exactly on the numbers
    outside 1..9. *)
Theorem get_feature_name_inverts (feature : Z) (name : string) :
  (get_feature_name feature = Some name <-> (name, feature) ∈ FeatureName) /\
  (get_feature_name feature = None <-> ~ 1 <= feature <= 9).
Proof.
  split; split.
  - intros H. pose proof (get_feature_name_cases _ _ H) as Hc.
    destruct Hc as [->|[->|[->|[->|[->|[->|[->|[->| ->]]]]]]]];
      vm_compute in H; injection H as <-;
      apply list_elem_of_In; simpl; tauto.
  - unfold FeatureName. intros H.
    repeat (apply elem_of_cons in H as [[= -> ->]|H]; [vm_compute; reflexivity|]).
    apply elem_of_nil in H. contradiction.
  - intros H Hr.
    assert (Hc : feature = 1 \/ feature = 2 \/ feature = 3 \/ feature = 4 \/
                 feature = 5 \/ feature = 6 \/ feature = 7 \/ feature = 8 \/
                 feature = 9) by lia.
    destruct Hc as [->|[->|[->|[->|[->|[->|[->|[->| ->]]]]]]]];
      vm_compute in H; discriminate H.
  - intros Hr. destruct (get_feature_name feature) as [n|] eqn:E; [|reflexivity].
    apply get_feature_name_cases in E. lia.
Qed.

(** ** Synchronisation *)

Lemma sync_window (line : list byte) :
  forall header rest,
    length header = 4%nat ->
    sync line header = Some rest ->
    exists pre, line = pre ++ rest /\
                drop (length pre) (header ++ (ord <$> pre)) = preamble.
Proof.
  induction line as [|b line IH]; intros header rest Hh; simpl.
  - case_bool_decide as Hd; [|discriminate]. intros [= <-].
    exists []. simpl. rewrite app_nil_r. auto.
  - case_bool_decide as Hd.
    + intros [= <-]. exists []. simpl. rewrite app_nil_r. auto.
    + intros Hs. destruct header as [|h0 header]; [discriminate Hh|].
      apply IH in Hs as (pre & -> & Hw); [|simpl in *; rewrite length_app; simpl; lia].
      exists (b :: pre). split; [reflexivity|].
      simpl in *. rewrite <- app_assoc in Hw. exact Hw.
Qed.

Lemma ord_inj (b c : byte) : ord b = ord c -> b = c.
Proof.
  unfold ord. intros H. apply N2Z.inj in H.
  pose proof (Byte.of_to_N b) as Hb. rewrite H, Byte.of_to_N in Hb.
  congruence.
Qed.

Lemma sync_finds (junk : list byte) :
  forall header rest,
    length header = 4%nat ->
    is_Some (sync (junk ++ [xff; x00; xff; xa5] ++ rest) header).
Proof.
  induction junk as [|b junk IH]; intros header rest Hh.
  - destruct header as [|h0 [|h1 [|h2 [|h3 [|h4 header]]]]]; try discriminate Hh.
    simpl. repeat (case_bool_decide; [eexists; reflexivity|]).
    destruct rest; eexists; reflexivity.
  - simpl. case_bool_decide; [eexists; reflexivity|].
    apply IH. destruct header; [discriminate Hh|].
    simpl in *. rewrite length_app. simpl. lia.
Qed.

(** X2: the reader finds a frame start exactly when the four preamble bytes
    255, 0, 255, 165 occur on the line, and what it leaves for the frame is
    what follows an occurrence of them: no frame is ever started elsewhere. *)
Theorem sync_preamble (line : list byte) :
  (is_Some (sync line [0; 0; 0; 0]) <->
   exists junk rest, line = junk ++ [xff; x00; xff; xa5] ++ rest) /\
  (forall rest, sync line [0; 0; 0; 0] = Some rest ->
                exists junk, line = junk ++ [xff; x00; xff; xa5] ++ rest).
Proof.
  assert (Hsound : forall rest, sync line [0; 0; 0; 0] = Some rest ->
                     exists junk, line = junk ++ [xff; x00; xff; xa5] ++ rest).
  { intros rest Hs.
    apply sync_window in Hs as (pre & -> & Hw); [|reflexivity].
    destruct (decide (length pre < 4)%nat) as [Hlt|Hge].
    - destruct pre as [|p0 [|p1 [|p2 [|p3 pre]]]]; simpl in *;
        try discriminate Hw; lia.
    - rewrite drop_app_ge in Hw by (simpl; lia). simpl length in Hw.
      rewrite <- fmap_drop in Hw.
      exists (take (length pre - 4) pre).
      rewrite <- (take_drop (length pre - 4) pre) at 1.
      rewrite <- app_assoc. f_equal.
      destruct (drop (length pre - 4) pre) as [|b0 [|b1 [|b2 [|b3 [|b4 tl]]]]];
        try discriminate Hw.
      injection Hw as H0 H1 H2 H3.
      apply (ord_inj _ xff) in H0. apply (ord_inj _ x00) in H1.
      apply (ord_inj _ xff) in H2. apply (ord_inj _ xa5) in H3.
      subst. reflexivity. }
  split.
  - split.
    + intros [rest Hs]. destruct (Hsound rest Hs) as [junk Hj]. eauto.
    + intros (junk & rest & ->). apply sync_finds. reflexivity.
  - exact Hsound.
Qed.

(** ** [get_packet] *)

Lemma sum_app (l k : list Z) : sum (l ++ k) = sum l + sum k.
Proof. induction l as [|x l IH]; simpl; [reflexivity | rewrite IH; lia]. Qed.

Lemma port_read_app (pre rest : list byte) st :
  port_read (length pre) (set_port_in (pre ++ rest) st) =
    Return pre (set_port_in rest st).
Proof.
  unfold port_read. simpl.
  rewrite bool_decide_eq_true_2 by (rewrite length_app; lia).
  rewrite take_app_length, drop_app_length. reflexivity.
Qed.

Lemma get_packet_frame st (hdr payload : list byte) (hi lo : byte) (rest : list byte) :
  length hdr = 5%nat ->
  last (ord <$> hdr) = Some (Z.of_nat (length payload)) ->
  ord hi * 256 + ord lo = 165 + sum (ord <$> hdr) + sum (ord <$> payload) ->
  get_packet (set_port_in ([xff; x00; xff; xa5] ++ hdr ++ payload ++ [hi; lo] ++ rest) st)
  = Return (165 :: (ord <$> hdr) ++ (ord <$> payload)) (set_port_in rest st).
Proof.
  intros Lh Hlast Hsum.
  assert (Hsync : port_sync (set_port_in ([xff; x00; xff; xa5] ++ hdr ++ payload
                                            ++ [hi; lo] ++ rest) st)
                  = Return tt (set_port_in (hdr ++ payload ++ [hi; lo] ++ rest) st)).
  { unfold port_sync. simpl.
    destruct (hdr ++ payload ++ hi :: lo :: rest); reflexivity. }
  assert (Hhdr : port_read 5 (set_port_in (hdr ++ payload ++ [hi; lo] ++ rest) st)
                 = Return hdr (set_port_in (payload ++ [hi; lo] ++ rest) st)).
  { rewrite <- Lh. apply port_read_app. }
  assert (Hn : Z.to_nat (default 0 (last ([165] ++ (ord <$> hdr)))) = length payload).
  { destruct hdr as [|b0 hdr]; [discriminate Lh|].
    change (last ([165] ++ (ord <$> b0 :: hdr))) with (last (ord <$> b0 :: hdr)).
    rewrite Hlast. simpl. lia. }
  assert (Hpay : port_read (length payload) (set_port_in (payload ++ [hi; lo] ++ rest) st)
                 = Return payload (set_port_in ([hi; lo] ++ rest) st))
    by apply port_read_app.
  unfold get_packet, read_frame.
  rewrite bind_assoc, (bind_Return _ _ _ _ _ Hsync).
  rewrite bind_assoc, (bind_Return _ _ _ _ _ Hhdr). cbv beta zeta.
  rewrite Hn, bind_assoc, (bind_Return _ _ _ _ _ Hpay). cbv beta.
  assert (Hhi : port_read_ord (set_port_in ([hi; lo] ++ rest) st)
                = Return (ord hi) (set_port_in (lo :: rest) st)) by reflexivity.
  assert (Hlo : port_read_ord (set_port_in (lo :: rest) st)
                = Return (ord lo) (set_port_in rest st)) by reflexivity.
  rewrite bind_assoc, (bind_Return _ _ _ _ _ Hhi). cbv beta.
  rewrite bind_assoc, (bind_Return _ _ _ _ _ Hlo). cbv beta.
  unfold bind, ret.
  rewrite bool_decide_eq_false_2; [reflexivity|].
  intros Hne. apply Hne. simpl. rewrite sum_app. lia.
Qed.

(** X3: a well-formed frame at the head of the line is always accepted:
    behind the four preamble bytes, five header bytes whose last one is the
    payload length, that many payload bytes, and two bytes holding, high byte
    first, the sum of 165, the header and the payload, [get_packet] returns
    the packet [165; header; payload] and leaves exactly what follows the
    frame on the line. *)
Theorem get_packet_accepts st (hdr payload : list byte) (hi lo : byte) (rest : list byte) :
  length hdr = 5%nat ->
  last (ord <$> hdr) = Some (Z.of_nat (length payload)) ->
  ord hi * 256 + ord lo = 165 + sum (ord <$> hdr) + sum (ord <$> payload) ->
  get_packet (set_port_in ([xff; x00; xff; xa5] ++ hdr ++ payload ++ [hi; lo] ++ rest) st)
  = Return (165 :: (ord <$> hdr) ++ (ord <$> payload)) (set_port_in rest st).
Proof. apply get_packet_frame. Qed.

Lemma get_packet_accepts_witness :
  get_packet (set_port_in ([xff; x00; xff; xa5] ++ bytes [1; 15; 16; 2; 2]
                             ++ bytes [10; 30] ++ [x00; xf1] ++ [x07]) (idle []))
  = Return (165 :: (ord <$> bytes [1; 15; 16; 2; 2]) ++ (ord <$> bytes [10; 30]))
           (set_port_in [x07] (idle [])).
Proof.
  apply (get_packet_accepts (idle []) (bytes [1; 15; 16; 2; 2]) (bytes [10; 30])
           x00 xf1 [x07]); reflexivity.
Defined.

Lemma sync_consumes (line rest : list byte) :
  sync line [0; 0; 0; 0] = Some rest -> (length rest + 4 <= length line)%nat.
Proof.
  intros Hs. apply sync_window in Hs as (pre & -> & Hw); [|reflexivity].
  rewrite length_app.
  destruct pre as [|p0 [|p1 [|p2 [|p3 pre]]]]; simpl in *; try discriminate Hw; lia.
Qed.

Lemma bind_Raise_inv {A B} (m : M A) (k : A -> M B) st e s :
  bind m k st = Raise e s ->
  m st = Raise e s \/ exists a s1, m st = Return a s1 /\ k a s1 = Raise e s.
Proof.
  unfold bind. destruct (m st) as [a s1|e1 s1|s1]; intros H; try discriminate.
  - right. eauto.
  - left. injection H as -> ->. reflexivity.
Qed.

Lemma port_sync_no_raise st e s : port_sync st <> Raise e s.
Proof. unfold port_sync. destruct (sync _ _); discriminate. Qed.

Lemma port_read_no_raise n st e s : port_read n st <> Raise e s.
Proof. unfold port_read. case_bool_decide; discriminate. Qed.

Lemma port_read_ord_no_raise st e s : port_read_ord st <> Raise e s.
Proof. unfold port_read_ord. destruct (port_in st); discriminate. Qed.

Lemma read_frame_no_raise st e s : read_frame st <> Raise e s.
Proof.
  unfold read_frame. intros H.
  apply bind_Raise_inv in H as [H|(u & s0 & _ & H)]; [exact (port_sync_no_raise _ _ _ H)|].
  apply bind_Raise_inv in H as [H|(hdr & s1 & _ & H)]; [exact (port_read_no_raise _ _ _ _ H)|].
  apply bind_Raise_inv in H as [H|(pl & s2 & _ & H)]; [exact (port_read_no_raise _ _ _ _ H)|].
  apply bind_Raise_inv in H as [H|(hi & s3 & _ & H)]; [exact (port_read_ord_no_raise _ _ _ H)|].
  apply bind_Raise_inv in H as [H|(lo & s4 & _ & H)]; [exact (port_read_ord_no_raise _ _ _ H)|].
  discriminate H.
Qed.

Lemma get_packet_no_raise st e s : get_packet st <> Raise e s.
Proof.
  unfold get_packet. intros H.
  apply bind_Raise_inv in H as [H|([p c] & s0 & _ & H)]; [exact (read_frame_no_raise _ _ _ H)|].
  revert H. case_bool_decide; discriminate.
Qed.

Lemma read_frame_consumes st x st' :
  read_frame st = Return x st' ->
  (length (port_in st') + 11 <= length (port_in st))%nat.
Proof.
  unfold read_frame. intros H.
  destruct (bind_Return_inv _ _ _ _ _ H) as (u & s0 & H0 & K0).
  unfold port_sync in H0.
  destruct (sync (port_in st) [0; 0; 0; 0]) as [r|] eqn:Hs; [|discriminate H0].
  injection H0 as _ <-. apply sync_consumes in Hs.
  destruct (bind_Return_inv _ _ _ _ _ K0) as (hdr & s1 & H1 & K1).
  apply port_read_inv in H1 as (Lh & Ph & _). simpl in Ph.
  destruct (bind_Return_inv _ _ _ _ _ K1) as (payload & s2 & H2 & K2).
  apply port_read_inv in H2 as (_ & Pp & _).
  destruct (bind_Return_inv _ _ _ _ _ K2) as (hi & s3 & H3 & K3).
  apply port_read_ord_inv in H3 as (bh & _ & Phi & _).
  destruct (bind_Return_inv _ _ _ _ _ K3) as (lo & s4 & H4 & K4).
  apply port_read_ord_inv in H4 as (bl & _ & Plo & _).
  injection K4 as _ <-.
  rewrite Ph, Pp, Phi, Plo in Hs. rewrite !length_app in Hs. simpl in Hs. lia.
Qed.

(** X4: [get_packet] never raises.  When it comes back it has used up at
    least 11 bytes of the line and changed nothing else, and what it returns
    is either the empty list or a whole frame: the byte 165, then byte values
    only, with exactly the number of payload bytes that [packet[5]]
    declares. *)
Theorem get_packet_outcome st :
  match get_packet st with
  | Return packet st' =>
      (packet = [] \/ (is_frame packet /\ packet !! 0%nat = Some 165)) /\
      st' = set_port_in (port_in st') st /\
      (length (port_in st') + 11 <= length (port_in st))%nat
  | Raise _ _ => False
  | Blocked _ => True
  end.
Proof.
  destruct (get_packet st) as [packet st'|e st'|st'] eqn:Hg; [| |exact I].
  - pose proof (get_packet_consumes _ _ _ Hg) as [E _].
    unfold get_packet in Hg.
    destruct (bind_Return_inv _ _ _ _ _ Hg) as ([p c] & s0 & Hf & K).
    pose proof (read_frame_consumes _ _ _ Hf) as Hlen.
    destruct (read_frame_inv _ _ _ _ Hf) as (hdr & payload & hi & lo & Lh & Lp & Hp & _).
    assert (Hfr : is_frame p /\ p !! 0%nat = Some 165).
    { rewrite Hp. split; [|reflexivity]. split.
      - constructor; [lia|]. apply Forall_app. split; apply Forall_ord.
      - destruct hdr as [|b0 [|b1 [|b2 [|b3 [|b4 [|b5 hdr]]]]]]; try discriminate Lh.
        simpl in *. rewrite length_fmap, Lp. reflexivity. }
    revert K. case_bool_decide; intros [= <- <-]; (split; [|split; [exact E | exact Hlen]]).
    + left. reflexivity.
    + right. exact Hfr.
  - exact (get_packet_no_raise _ _ _ Hg).
Qed.

(** ** Pump telemetry *)

Lemma py_eqb_pump (a : Z) :
  py_eqb (controller_of a) (VStr "Pump1") = bool_decide (a = Ctrl.PUMP1).
Proof.
  unfold controller_of, Controller.
  destruct (bool_decide (a = Ctrl.MAIN)) eqn:E1;
    [apply bool_decide_eq_true_1 in E1; subst; reflexivity|].
  destruct (bool_decide (a = Ctrl.REMOTE)) eqn:E2;
    [apply bool_decide_eq_true_1 in E2; subst; reflexivity|].
  destruct (bool_decide (a = Ctrl.PUMP1)) eqn:E3; [reflexivity|].
  destruct (bool_decide (a = Ctrl.BROADCAST)) eqn:E4; reflexivity.
Qed.

Lemma is_frame_length packet : is_frame packet -> (6 <= length packet)%nat.
Proof. intros [_ Hl]. lia. Qed.

(** X5: pump telemetry is taken from a frame exactly when its source is the
    pump (0x60), its command byte is 7 and the packet has 21 items; then
    [pump_watts] and [pump_rpm] become the big-endian 16-bit values of
    [packet[9..10]] and [packet[11..12]] and no other key changes.  On every
    other frame the store is left as it is.  Nothing is raised either way. *)
Theorem read_status_pump_telemetry packet (a : Z) st :
  is_frame packet ->
  (a = Ctrl.PUMP1 /\ packet !! 4%nat = Some 7 /\ length packet = 21%nat ->
   exists w1 w0 r1 r0,
     packet !! 9%nat = Some w1 /\ packet !! 10%nat = Some w0 /\
     packet !! 11%nat = Some r1 /\ packet !! 12%nat = Some r0 /\
     0 <= 256 * w1 + w0 < 65536 /\ 0 <= 256 * r1 + r0 < 65536 /\
     read_status_pump packet (controller_of a) st =
       Return tt (set_status (<["pump_rpm" := VInt (256 * r1 + r0)]>
                               (<["pump_watts" := VInt (256 * w1 + w0)]> (status st))) st)) /\
  (~ (a = Ctrl.PUMP1 /\ packet !! 4%nat = Some 7 /\ length packet = 21%nat) ->
   read_status_pump packet (controller_of a) st = Return tt st).
Proof.
  intros Hf. pose proof (is_frame_length _ Hf) as Hlen. destruct Hf as [Hb _].
  destruct (lookup_lt_is_Some_2 packet 4) as [cmd H4]; [lia|].
  unfold read_status_pump. rewrite py_eqb_pump. split.
  - intros (-> & H4' & L21). rewrite H4 in H4'. injection H4' as ->.
    destruct (lookup_lt_is_Some_2 packet 9) as [w1 H9]; [lia|].
    destruct (lookup_lt_is_Some_2 packet 10) as [w0 H10]; [lia|].
    destruct (lookup_lt_is_Some_2 packet 11) as [r1 H11]; [lia|].
    destruct (lookup_lt_is_Some_2 packet 12) as [r0 H12]; [lia|].
    pose proof (Forall_lookup_1 _ _ _ _ Hb H9).
    pose proof (Forall_lookup_1 _ _ _ _ Hb H10).
    pose proof (Forall_lookup_1 _ _ _ _ Hb H11).
    pose proof (Forall_lookup_1 _ _ _ _ Hb H12).
    cbv beta in *.
    exists w1, w0, r1, r0.
    split; [exact H9|]. split; [exact H10|]. split; [exact H11|]. split; [exact H12|].
    split; [lia|]. split; [lia|].
    rewrite bool_decide_eq_true_2 by reflexivity.
    rewrite (bind_item _ _ _ _ _ H4). cbv beta.
    rewrite !bool_decide_eq_true_2 by (reflexivity || assumption). cbn [andb].
    rewrite (bind_item _ _ _ _ _ H9). cbv beta.
    rewrite (bind_item _ _ _ _ _ H10). cbv beta.
    rewrite bind_store. cbv beta.
    rewrite (bind_item _ _ _ _ _ H11). cbv beta.
    rewrite (bind_item _ _ _ _ _ H12). cbv beta.
    unfold store. rewrite !Z.shiftl_mul_pow2 by lia.
    replace (w1 * 2 ^ 8) with (256 * w1) by lia.
    replace (r1 * 2 ^ 8) with (256 * r1) by lia.
    reflexivity.
  - intros Hno. case_bool_decide as Ha; [|reflexivity].
    rewrite (bind_item _ _ _ _ _ H4). cbv beta.
    destruct (bool_decide (cmd = 7) && bool_decide (length packet = 21%nat)) eqn:E;
      [|reflexivity].
    apply andb_prop in E as [E1%bool_decide_eq_true_1 E2%bool_decide_eq_true_1].
    exfalso. apply Hno. subst cmd. auto.
Qed.

Lemma read_status_pump_telemetry_witness :
  let packet := [165; 0; 16; 96; 7; 15; 10; 2; 0; 1; 44; 9; 196; 0; 0; 0; 0; 0; 0; 0; 0] in
  exists w1 w0 r1 r0,
    packet !! 9%nat = Some w1 /\ packet !! 10%nat = Some w0 /\
    packet !! 11%nat = Some r1 /\ packet !! 12%nat = Some r0 /\
    0 <= 256 * w1 + w0 < 65536 /\ 0 <= 256 * r1 + r0 < 65536 /\
    read_status_pump packet (controller_of Ctrl.PUMP1) (idle []) =
      Return tt (set_status (<["pump_rpm" := VInt (256 * r1 + r0)]>
                              (<["pump_watts" := VInt (256 * w1 + w0)]> (status (idle []))))
                            (idle [])).
Proof.
  intros packet.
  assert (Hf : is_frame packet) by (apply (bool_decide_unpack _); vm_compute; exact I).
  destruct (read_status_pump_telemetry packet Ctrl.PUMP1 (idle []) Hf) as [Hyes _].
  apply Hyes. repeat split.
Defined.

(** ** The reading loop, continued *)

Lemma set_status_same st : set_status (status st) st = st.
Proof. destruct st; reflexivity. Qed.

Lemma read_status_pump_returns packet src st :
  is_frame packet ->
  exists d, read_status_pump packet src st = Return tt (set_status d st).
Proof.
  intros Hf. pose proof (is_frame_length _ Hf) as Hlen.
  destruct (lookup_lt_is_Some_2 packet 4) as [cmd H4]; [lia|].
  unfold read_status_pump.
  destruct (py_eqb src (VStr "Pump1"));
    [|exists (status st); rewrite set_status_same; reflexivity].
  rewrite (bind_item _ _ _ _ _ H4). cbv beta.
  destruct (bool_decide (cmd = 7) && bool_decide (length packet = 21%nat)) eqn:E;
    [|exists (status st); rewrite set_status_same; reflexivity].
  apply andb_prop in E as [_ L21%bool_decide_eq_true_1].
  destruct (lookup_lt_is_Some_2 packet 9) as [w1 H9]; [lia|].
  destruct (lookup_lt_is_Some_2 packet 10) as [w0 H10]; [lia|].
  destruct (lookup_lt_is_Some_2 packet 11) as [r1 H11]; [lia|].
  destruct (lookup_lt_is_Some_2 packet 12) as [r0 H12]; [lia|].
  rewrite (bind_item _ _ _ _ _ H9). cbv beta.
  rewrite (bind_item _ _ _ _ _ H10). cbv beta.
  rewrite bind_store. cbv beta.
  rewrite (bind_item _ _ _ _ _ H11). cbv beta.
  rewrite (bind_item _ _ _ _ _ H12). cbv beta.
  eexists. reflexivity.
Qed.

(** One turn of the loop on a packet that [get_packet] returned. *)
Lemma read_status_loop_turn turns controller st packet st1 :
  get_packet st = Return packet st1 -> packet <> [] ->
  exists dst src d,
    packet !! 2%nat = Some dst /\ packet !! 3%nat = Some src /\
    read_status_pump packet (controller_of src) st1 = Return tt (set_status d st1) /\
    read_status_loop (S turns) controller st =
      if bool_decide (controller = None) || bool_decide (dst = Ctrl.BROADCAST)
      then Return (packet, controller_of src, controller_of dst) (set_status d st1)
      else read_status_loop turns controller (set_status d st1).
Proof.
  intros Hg Hne.
  destruct (get_packet_is_frame _ _ _ Hg) as [->|Hf]; [contradiction|].
  pose proof (is_frame_length _ Hf) as Hlen.
  destruct (lookup_lt_is_Some_2 packet 2) as [dst H2]; [lia|].
  destruct (lookup_lt_is_Some_2 packet 3) as [src H3]; [lia|].
  destruct (read_status_pump_returns packet (controller_of src) st1 Hf) as [d Hp].
  exists dst, src, d. split; [exact H2|]. split; [exact H3|]. split; [exact Hp|].
  cbn [read_status_loop]. rewrite (bind_Return _ _ _ _ _ Hg).
  rewrite !bool_decide_eq_true_2 by lia.
  rewrite (bind_item _ _ _ _ _ H2). cbv beta.
  rewrite (bind_item _ _ _ _ _ H3). cbv beta zeta.
  rewrite (bind_Return _ _ _ _ _ Hp). cbn [andb].
  destruct (bool_decide (controller = None) || bool_decide (dst = Ctrl.BROADCAST));
    reflexivity.
Qed.

(** X6: what [read_status] does with the next frame.  When [get_packet]
    returns a frame, pump telemetry is merged first; the frame is then decoded
    if no controller was asked for or its destination byte is the broadcast
    address, and otherwise it is passed over and [read_status] carries on with
    the line that follows, as if called afresh there. *)
Theorem read_status_next_frame controller st packet st1 :
  get_packet st = Return packet st1 -> packet <> [] ->
  exists dst src d,
    packet !! 2%nat = Some dst /\ packet !! 3%nat = Some src /\
    read_status_pump packet (controller_of src) st1 = Return tt (set_status d st1) /\
    read_status controller st =
      if bool_decide (controller = None) || bool_decide (dst = Ctrl.BROADCAST)
      then read_status_decode packet (controller_of src) (controller_of dst)
             (set_status d st1)
      else read_status controller (set_status d st1).
Proof.
  intros Hg Hne.
  destruct (read_status_loop_turn (length (port_in st)) controller st packet st1 Hg Hne)
    as (dst & src & d & H2 & H3 & Hp & Hstep).
  exists dst, src, d. split; [exact H2|]. split; [exact H3|]. split; [exact Hp|].
  destruct (get_packet_consumes _ _ _ Hg) as [_ Hlen].
  unfold read_status, bind. rewrite Hstep.
  destruct (bool_decide (controller = None) || bool_decide (dst = Ctrl.BROADCAST));
    [reflexivity|].
  rewrite (read_status_loop_turns (length (port_in st))
             (S (length (port_in (set_status d st1)))) controller (set_status d st1))
    by (simpl; lia).
  reflexivity.
Qed.

Lemma read_status_next_frame_witness :
  let skipped := frame [165; 1; 16; 32; 2; 2; 10; 30] in
  let good := frame (status_body 0xa1 0 25) in
  exists dst src d,
    [165; 1; 16; 32; 2; 2; 10; 30] !! 2%nat = Some dst /\
    [165; 1; 16; 32; 2; 2; 10; 30] !! 3%nat = Some src /\
    read_status_pump [165; 1; 16; 32; 2; 2; 10; 30] (controller_of src) (idle good)
      = Return tt (set_status d (idle good)) /\
    read_status (Some Ctrl.BROADCAST) (idle (skipped ++ good)) =
      if bool_decide (Some Ctrl.BROADCAST = None) || bool_decide (dst = Ctrl.BROADCAST)
      then read_status_decode [165; 1; 16; 32; 2; 2; 10; 30] (controller_of src)
             (controller_of dst) (set_status d (idle good))
      else read_status (Some Ctrl.BROADCAST) (set_status d (idle good)).
Proof.
  apply (read_status_next_frame (Some Ctrl.BROADCAST)
           (idle (frame [165; 1; 16; 32; 2; 2; 10; 30] ++ frame (status_body 0xa1 0 25)))
           [165; 1; 16; 32; 2; 2; 10; 30]
           (idle (frame (status_body 0xa1 0 25)))).
  - vm_compute. reflexivity.
  - discriminate.
Defined.

Lemma read_status_loop_controller (turns : nat) :
  forall c1 c2 st,
    read_status_loop turns (Some c1) st = read_status_loop turns (Some c2) st.
Proof.
  induction turns as [|turns IH]; intros c1 c2 st; [reflexivity|].
  cbn [read_status_loop].
  apply bind_ext. intros packet s _.
  case_bool_decide; [|apply IH].
  apply bind_ext. intros dst s1 _.
  apply bind_ext. intros src s2 _.
  apply bind_ext. intros u s3 _.
  rewrite !(bool_decide_eq_false_2 (Some _ = None)) by discriminate.
  destruct (true && (false || bool_decide (dst = Ctrl.BROADCAST)));
    [reflexivity | apply IH].
Qed.

(** X7: the value of the [controller] argument is never looked at: whatever
    controller is named, [read_status] waits for a frame addressed to the
    broadcast address. *)
Theorem read_status_controller_value_unused (c1 c2 : Z) st :
  read_status (Some c1) st = read_status (Some c2) st.
Proof.
  unfold read_status, bind.
  rewrite (read_status_loop_controller _ c1 c2). reflexivity.
Qed.

Lemma read_status_loop_no_raise (turns : nat) :
  forall controller st e s, read_status_loop turns controller st <> Raise e s.
Proof.
  induction turns as [|turns IH]; intros controller st e s; [discriminate|].
  destruct (get_packet st) as [packet st1|e1 st1|st1] eqn:Hg.
  - destruct (decide (packet = [])) as [->|Hne].
    + cbn [read_status_loop]. rewrite (bind_Return _ _ _ _ _ Hg).
      rewrite bool_decide_eq_false_2 by (simpl; lia). apply IH.
    + destruct (read_status_loop_turn turns controller st packet st1 Hg Hne)
        as (dst & src & d & _ & _ & _ & ->).
      destruct (bool_decide (controller = None) || bool_decide (dst = Ctrl.BROADCAST));
        [discriminate | apply IH].
  - exfalso. exact (get_packet_no_raise _ _ _ Hg).
  - cbn [read_status_loop]. unfold bind. rewrite Hg. discriminate.
Qed.

Lemma read_status_raise_inv controller st e st' :
  read_status controller st = Raise e st' ->
  e = IndexError /\
  exists packet src dst st1,
    read_status_loop (S (length (port_in st))) controller st
      = Return (packet, src, dst) st1 /\
    (length packet = 20%nat \/ length packet = 24%nat) /\
    ready st' = ready st1.
Proof.
  unfold read_status. intros H.
  apply bind_Raise_inv in H as [H|([[packet src] dst] & st1 & Hloop & H)];
    [exfalso; exact (read_status_loop_no_raise _ _ _ _ _ H)|].
  pose proof (read_status_loop_is_frame _ _ _ _ _ _ _ Hloop) as Hf.
  pose proof (is_frame_length _ Hf) as Hlen.
  destruct (lookup_lt_is_Some_2 packet 5) as [n H5]; [lia|].
  destruct (Z.le_gt_cases n 8) as [Hn|Hn].
  - rewrite (read_status_decode_short _ _ _ _ _ H5 Hn) in H. discriminate H.
  - destruct (is_frame_items packet n Hf H5 Hn)
      as (h & m & e1 & e2 & H6 & H7 & H8 & H9 & He1 & He2 & _).
    rewrite (read_status_decode_long _ _ _ _ _ _ _ _ _ H5 Hn H6 H7 H8 H9 He1 He2) in H.
    match type of H with
    | context [read_status_temps packet ?s] =>
        destruct (read_status_temps_spec packet s) as (d & Hfin & _ & Hout)
    end.
    destruct (read_status_temps packet _) as [u s|e' s|s]; try discriminate H.
    injection H as -> ->. destruct Hout as [-> Hl].
    split; [reflexivity|]. exists packet, src, dst, st1.
    split; [exact Hloop|]. split; [exact Hl|].
    simpl in Hfin. rewrite Hfin. reflexivity.
Qed.

(** X8: the only exception [read_status] can raise is the [IndexError] of
    the temperature reads, and it raises it only on an accepted packet of
    exactly 20 or 24 items; the flag is then as the loop left it. *)
Theorem read_status_raises_only_index_error controller st e st' :
  read_status controller st = Raise e st' ->
  e = IndexError /\
  exists packet src dst st1,
    read_status_loop (S (length (port_in st))) controller st
      = Return (packet, src, dst) st1 /\
    (length packet = 20%nat \/ length packet = 24%nat) /\
    ready st' = ready st1.
Proof. apply read_status_raise_inv. Qed.

Lemma read_status_raises_only_index_error_witness :
  IndexError = IndexError /\
  exists packet src dst st1,
    read_status_loop (S (length (port_in (idle (frame (status_body 0xa1 0 10))))))
      (Some Ctrl.BROADCAST) (idle (frame (status_body 0xa1 0 10)))
      = Return (packet, src, dst) st1 /\
    (length packet = 20%nat \/ length packet = 24%nat) /\
    ready (final (read_status (Some Ctrl.BROADCAST) (idle (frame (status_body 0xa1 0 10)))))
      = ready st1.
Proof.
  apply (read_status_raises_only_index_error (Some Ctrl.BROADCAST)
           (idle (frame (status_body 0xa1 0 10))) IndexError
           (final (read_status (Some Ctrl.BROADCAST) (idle (frame (status_body 0xa1 0 10)))))).
  vm_compute. reflexivity.
Defined.

(** ** The decoder, continued *)

Lemma assign_all_decoded_other t src dst h m e1 e2 (d : gmap string value) key :
  key ∉ decoded_keys ->
  assign_all (decoded_fields t src dst h m e1 e2) d !! key = d !! key.
Proof.
  intros Hk. unfold assign_all, decoded_fields. cbn [foldl fst snd].
  rewrite !lookup_insert_ne
    by (intros <-; apply Hk; apply list_elem_of_In; simpl; tauto).
  reflexivity.
Qed.

Lemma read_status_temps_value packet st :
  length packet <> 20%nat -> length packet <> 24%nat ->
  exists d,
    read_status_temps packet st = Return tt (set_status d st) /\
    d !! "water_temp" = (if bool_decide (20 < length packet)%nat
                         then VInt <$> packet !! 20%nat
                         else status st !! "water_temp") /\
    d !! "air_temp" = (if bool_decide (24 < length packet)%nat
                       then VInt <$> packet !! 24%nat
                       else status st !! "air_temp").
Proof.
  intros L20 L24. destruct st as [line out d0 r c t].
  unfold read_status_temps, WaterTemp, AirTemp, bind, item, lift, store, ret, raise.
  destruct (packet !! 20%nat) as [w|] eqn:E20;
    [pose proof (lookup_lt_Some _ _ _ E20) | pose proof (proj1 (lookup_ge_None _ _) E20)];
  (destruct (packet !! 24%nat) as [a|] eqn:E24;
    [pose proof (lookup_lt_Some _ _ _ E24) | pose proof (proj1 (lookup_ge_None _ _) E24)]);
  repeat case_bool_decide; simpl; try lia;
  eexists; (split; [reflexivity|]); simpl;
  rewrite ?lookup_insert_eq, ?lookup_insert_ne by discriminate;
  rewrite ?lookup_insert_eq; split; reflexivity.
Qed.

(** X9: on a validated status frame declaring more than 8 payload bytes
    whose packet has neither 20 nor 24 items, decoding completes with the flag
    set; the water temperature becomes [packet[20]] exactly when the packet
    has more than 20 items and the air temperature [packet[24]] exactly when
    it has more than 24, and each is left as it was otherwise. *)
Theorem read_status_temperatures packet src dst st n :
  is_frame packet -> packet !! 5%nat = Some n -> 8 < n ->
  length packet <> 20%nat -> length packet <> 24%nat ->
  exists st',
    read_status_decode packet src dst st = Return (status st') st' /\
    ready st' = true /\
    status st' !! "water_temp" =
      (if bool_decide (20 < length packet)%nat then VInt <$> packet !! 20%nat
       else status st !! "water_temp") /\
    status st' !! "air_temp" =
      (if bool_decide (24 < length packet)%nat then VInt <$> packet !! 24%nat
       else status st !! "air_temp").
Proof.
  intros Hf H5 Hn L20 L24.
  destruct (is_frame_items packet n Hf H5 Hn)
    as (h & m & e1 & e2 & H6 & H7 & H8 & H9 & He1 & He2 & _).
  rewrite (read_status_decode_long _ _ _ _ _ _ _ _ _ H5 Hn H6 H7 H8 H9 He1 He2).
  match goal with
  | |- context [read_status_temps packet ?s] =>
      destruct (read_status_temps_value packet s L20 L24) as (d & -> & Hw & Ha);
      exists (set_ready true (set_status d s))
  end.
  split; [reflexivity|]. split; [reflexivity|].
  cbn [status set_status set_ready] in *.
  unfold assign_all, decoded_fields in Hw, Ha. cbn [foldl fst snd] in Hw, Ha.
  rewrite !lookup_insert_ne in Hw by discriminate.
  rewrite !lookup_insert_ne in Ha by discriminate.
  split; [exact Hw | exact Ha].
Qed.

Lemma read_status_temperatures_witness :
  exists st',
    read_status_decode (status_body 0xa1 0 12) (VStr "Main") (VStr "Broadcast") (idle [])
      = Return (status st') st' /\
    ready st' = true /\
    status st' !! "water_temp" =
      (if bool_decide (20 < length (status_body 0xa1 0 12))%nat
       then VInt <$> status_body 0xa1 0 12 !! 20%nat
       else status (idle []) !! "water_temp") /\
    status st' !! "air_temp" =
      (if bool_decide (24 < length (status_body 0xa1 0 12))%nat
       then VInt <$> status_body 0xa1 0 12 !! 24%nat
       else status (idle []) !! "air_temp").
Proof.
  apply (read_status_temperatures (status_body 0xa1 0 12) (VStr "Main")
           (VStr "Broadcast") (idle []) 16).
  - apply (bool_decide_unpack _). vm_compute. exact I.
  - reflexivity.
  - lia.
  - discriminate.
  - discriminate.
Defined.

(** X10: decoding a status frame touches no key of the store other than the
    fifteen it assigns; pump telemetry stored earlier, for one, survives every
    later status frame, whether or not the decoding runs to its end. *)
Theorem read_status_decode_keeps_other_keys packet src dst st key :
  is_frame packet ->
  key ∉ decoded_keys ->
  status (final (read_status_decode packet src dst st)) !! key = status st !! key.
Proof.
  intros Hf Hk. pose proof (is_frame_length _ Hf) as Hlen.
  destruct (lookup_lt_is_Some_2 packet 5) as [n H5]; [lia|].
  destruct (Z.le_gt_cases n 8) as [Hn|Hn].
  - rewrite (read_status_decode_short _ _ _ _ _ H5 Hn). reflexivity.
  - destruct (is_frame_items packet n Hf H5 Hn)
      as (h & m & e1 & e2 & H6 & H7 & H8 & H9 & He1 & He2 & _).
    rewrite (read_status_decode_fields _ _ _ _ _ _ _ _ _ _ H5 Hn H6 H7 H8 H9 He1 He2).
    + apply assign_all_decoded_other. exact Hk.
    + intros ->. apply Hk. apply list_elem_of_In. simpl. tauto.
    + intros ->. apply Hk. apply list_elem_of_In. simpl. tauto.
Qed.

Lemma read_status_decode_keeps_other_keys_witness :
  let st := set_status {[ "pump_watts"%string := VInt 300 ]} (idle []) in
  status (final (read_status_decode (status_body 0xa1 0 25) (VStr "Main")
                   (VStr "Broadcast") st)) !! "pump_watts"
  = status st !! "pump_watts".
Proof.
  apply (read_status_decode_keeps_other_keys (status_body 0xa1 0 25) (VStr "Main")
           (VStr "Broadcast") (set_status {[ "pump_watts"%string := VInt 300 ]} (idle []))
           "pump_watts").
  - apply (bool_decide_unpack _). vm_compute. exact I.
  - intros Hin. apply list_elem_of_In in Hin. simpl in Hin.
    repeat (destruct Hin as [Hin|Hin]; [discriminate Hin|]). exact Hin.
Defined.

(** ** The thread never writes *)

Lemma never_writes_bind {A B} (m : M A) (k : A -> M B) :
  never_writes m -> (forall a, never_writes (k a)) -> never_writes (bind m k).
Proof.
  intros Hm Hk st. unfold bind. specialize (Hm st).
  destruct (m st) as [a s|e s|s]; simpl in *; [|exact Hm|exact Hm].
  rewrite <- Hm. apply Hk.
Qed.

Lemma never_writes_ret {A} (a : A) : never_writes (ret a).
Proof. intros st. reflexivity. Qed.

Lemma never_writes_lift {A} e (o : option A) : never_writes (lift e o).
Proof. intros st. destruct o; reflexivity. Qed.

Lemma never_writes_store key v : never_writes (store key v).
Proof. intros st. reflexivity. Qed.

Lemma never_writes_now : never_writes now.
Proof. intros st. reflexivity. Qed.

Lemma never_writes_port_sync : never_writes port_sync.
Proof. intros st. unfold port_sync. destruct (sync _ _); reflexivity. Qed.

Lemma never_writes_port_read n : never_writes (port_read n).
Proof. intros st. unfold port_read. case_bool_decide; reflexivity. Qed.

Lemma never_writes_port_read_ord : never_writes port_read_ord.
Proof. intros st. unfold port_read_ord. destruct (port_in st); reflexivity. Qed.

Ltac never_writes_steps :=
  repeat first
    [ apply never_writes_bind; [|intros ?]
    | apply never_writes_ret
    | apply never_writes_lift
    | apply never_writes_store
    | apply never_writes_now
    | apply never_writes_port_sync
    | apply never_writes_port_read
    | apply never_writes_port_read_ord
    | match goal with
      | |- never_writes (if ?b then _ else _) => destruct b
      | |- never_writes (match ?x with (_, _) => _ end) => destruct x
      end ].

Lemma never_writes_get_packet : never_writes get_packet.
Proof. unfold get_packet, read_frame. never_writes_steps. Qed.

Lemma never_writes_read_status_pump packet src :
  never_writes (read_status_pump packet src).
Proof. unfold read_status_pump, item. never_writes_steps. Qed.

Lemma never_writes_read_status_loop (turns : nat) :
  forall controller, never_writes (read_status_loop turns controller).
Proof.
  induction turns as [|turns IH]; intros controller; [intros st; reflexivity|].
  cbn [read_status_loop]. unfold item.
  apply never_writes_bind; [apply never_writes_get_packet|]. intros packet.
  destruct (bool_decide (3 < length packet)%nat); [|apply IH].
  apply never_writes_bind; [apply never_writes_lift|]. intros dst.
  apply never_writes_bind; [apply never_writes_lift|]. intros src.
  apply never_writes_bind; [apply never_writes_read_status_pump|]. intros _.
  destruct (true && (bool_decide (controller = None) || bool_decide (dst = Ctrl.BROADCAST)));
    [apply never_writes_ret | apply IH].
Qed.

Lemma never_writes_read_status_decode packet src dst :
  never_writes (read_status_decode packet src dst).
Proof.
  unfold read_status_decode, read_status_temps, state_of_bit, item.
  never_writes_steps; intros st; reflexivity.
Qed.

Lemma never_writes_read_status controller : never_writes (read_status controller).
Proof.
  intros st. unfold read_status.
  apply (never_writes_bind (read_status_loop (S (length (port_in st))) controller)).
  - apply never_writes_read_status_loop.
  - intros [[packet src] dst]. apply never_writes_read_status_decode.
Qed.

(** X11: [read_status] never writes to the port: however a pass ends
    (returning, raising or waiting for bytes), the bytes written so far are
    the same as before it. *)
Theorem read_status_never_writes controller st :
  port_out (final (read_status controller st)) = port_out st.
Proof. apply never_writes_read_status. Qed.

(** ** The dispatcher, continued *)

Lemma run_pass_port_out s s' : run_pass s = Some s' -> port_out s' = port_out s.
Proof.
  unfold run_pass. intros H.
  pose proof (never_writes_read_status (Some Ctrl.BROADCAST) s) as Hw.
  destruct (read_status (Some Ctrl.BROADCAST) s) as [d s1|e s1|s1]; try discriminate H.
  injection H as <-. exact Hw.
Qed.

Lemma get_status_inv background st d st' :
  get_status background st = Return d st' ->
  background (set_ready false st) = Some st' /\ ready st' = true /\ d = status st'.
Proof.
  unfold get_status.
  destruct (background (set_ready false st)) as [s|]; [|discriminate].
  destruct (ready s) eqn:Hr; [|discriminate].
  intros [= <- <-]. auto.
Qed.

(** How the loop of lines 145-151 is left: the store reports the feature,
    and either it reports the desired state or no retry is left. *)
Lemma send_command_loop_exit background (retry : nat) :
  forall name state data st retry' st',
    send_command_loop background retry name state data st = Return retry' st' ->
    (retry' <= retry)%nat /\
    exists v, status st' !! name = Some v /\
              (py_eqb v state = true \/ (retry' = 0%nat /\ py_eqb v state = false)).
Proof.
  induction retry as [|retry IH]; intros name state data st retry' st' H;
    cbn [send_command_loop] in H;
    destruct (bind_Return_inv _ _ _ _ _ H) as (v & s0 & Hv & K);
    unfold fetch, lift in Hv;
    (destruct (status st !! name) as [v0|] eqn:E; [|discriminate Hv]);
    injection Hv as <- <-;
    destruct (py_eqb v0 state) eqn:Heq; cbn [negb] in K.
  - injection K as <- <-. split; [lia|]. eauto.
  - injection K as <- <-. split; [lia|]. eauto.
  - injection K as <- <-. split; [lia|]. eauto.
  - destruct (bind_Return_inv _ _ _ _ _ K) as (u & s1 & _ & K1).
    destruct (bind_Return_inv _ _ _ _ _ K1) as (d & s2 & _ & K2).
    apply IH in K2 as [Hle Hex]. split; [lia | exact Hex].
Qed.

Lemma send_command_loop_writes background (retry : nat) :
  (forall s s', background s = Some s' -> port_out s' = port_out s) ->
  forall name state data st retry' st',
    send_command_loop background retry name state data st = Return retry' st' ->
    (retry' <= retry)%nat /\
    port_out st' = port_out st ++ replicate (retry - retry') data.
Proof.
  intros Hbg.
  induction retry as [|retry IH]; intros name state data st retry' st' H;
    pose proof (send_command_loop_exit _ _ _ _ _ _ _ _ H) as [Hle _];
    cbn [send_command_loop] in H;
    destruct (bind_Return_inv _ _ _ _ _ H) as (v & s0 & Hv & K);
    unfold fetch, lift in Hv;
    (destruct (status st !! name) as [v0|] eqn:E; [|discriminate Hv]);
    injection Hv as <- <-;
    destruct (py_eqb v0 state) eqn:Heq; cbn [negb] in K.
  - injection K as <- <-. split; [lia|]. simpl. rewrite app_nil_r. reflexivity.
  - injection K as <- <-. split; [lia|]. simpl. rewrite app_nil_r. reflexivity.
  - injection K as <- <-. split; [lia|].
    rewrite Nat.sub_diag. simpl. rewrite app_nil_r. reflexivity.
  - destruct (bind_Return_inv _ _ _ _ _ K) as (u & s1 & Hwr & K1).
    injection Hwr as _ <-.
    destruct (bind_Return_inv _ _ _ _ _ K1) as (d & s2 & Hg & K2).
    apply get_status_inv in Hg as (Hb & _ & _). apply Hbg in Hb. simpl in Hb.
    apply IH in K2 as [Hle2 Hout]. split; [lia|].
    rewrite Hout, Hb, <- app_assoc. f_equal.
    replace (S retry - retry')%nat with (S (retry - retry')) by lia. reflexivity.
Qed.

(** X12: as long as what happens during the waits does not itself write to
    the port, a call of [send_command] that gets past its loop has written
    the command frame once, plus once for each retry used, and nothing else:
    at most six identical writes. *)
Theorem send_command_write_count background feature state name data st start retry st1 :
  (forall s s', background s = Some s' -> port_out s' = port_out s) ->
  get_feature_name feature = Some name ->
  array_B (command_data feature state) = Some data ->
  send_command_await background name state data
    (set_port_out (port_out st ++ [data]) st) = Return (start, retry) st1 ->
  (retry <= 5)%nat /\
  port_out (final (send_command background feature state st))
    = port_out st ++ replicate (6 - retry) data.
Proof.
  intros Hbg Hname Hdata Hawait.
  assert (Hst1 : (retry <= 5)%nat /\
                 port_out st1 = port_out st ++ replicate (6 - retry) data).
  { unfold send_command_await in Hawait. rewrite bind_now in Hawait. cbv beta in Hawait.
    destruct (bind_Return_inv _ _ _ _ _ Hawait) as (d & s1 & Hg & K).
    apply get_status_inv in Hg as (Hb & _ & _). apply Hbg in Hb. simpl in Hb.
    destruct (bind_Return_inv _ _ _ _ _ K) as (v & s2 & Hv & K1).
    unfold fetch, lift in Hv. destruct (status s1 !! name); [|discriminate Hv].
    injection Hv as _ <-.
    destruct (bind_Return_inv _ _ _ _ _ K1) as (r & s3 & Hloop & K2).
    injection K2 as _ <- <-.
    apply (send_command_loop_writes _ _ Hbg) in Hloop as [Hle Hout].
    split; [exact Hle|]. rewrite Hout, Hb, <- app_assoc. f_equal.
    replace (6 - r)%nat with (S (5 - r)) by lia. reflexivity. }
  destruct Hst1 as [Hle Hout]. split; [exact Hle|].
  rewrite (send_command_unfold _ _ _ _ _ _ Hname Hdata).
  unfold send_command_confirm. rewrite (bind_Return _ _ _ _ _ Hawait).
  rewrite send_command_finish_spec. case_bool_decide; exact Hout.
Qed.

Lemma send_command_write_count_witness :
  let off := frame (status_body 0 0 25) in
  let on := frame (status_body 0x20 0 25) in
  let st := at_pace 1000 (off ++ off ++ on) in
  let data := default [] (array_B (command_data Feature.POOL (VStr "on"))) in
  (3 <= 5)%nat /\
  port_out (final (send_command run_pass Feature.POOL (VStr "on") st))
    = port_out st ++ replicate (6 - 3) data.
Proof.
  intros off on st data.
  apply (send_command_write_count run_pass Feature.POOL (VStr "on") "pool" data st 0 3
           (final (send_command_await run_pass "pool" (VStr "on") data
                     (set_port_out (port_out st ++ [data]) st)))).
  - exact run_pass_port_out.
  - reflexivity.
  - reflexivity.
  - vm_compute. reflexivity.
Defined.

Lemma send_command_await_exit background name state data st start retry st1 :
  send_command_await background name state data st = Return (start, retry) st1 ->
  exists v, status st1 !! name = Some v /\
            (py_eqb v state = true \/ (retry = 0%nat /\ py_eqb v state = false)).
Proof.
  unfold send_command_await. rewrite bind_now. cbv beta. intros H.
  destruct (bind_Return_inv _ _ _ _ _ H) as (d & s1 & _ & K).
  destruct (bind_Return_inv _ _ _ _ _ K) as (v & s2 & _ & K1).
  destruct (bind_Return_inv _ _ _ _ _ K1) as (r & s3 & Hloop & K2).
  injection K2 as _ <- <-.
  apply send_command_loop_exit in Hloop as [_ Hex]. exact Hex.
Qed.

(** X13: a normal return of [send_command] does not mean the change was
    confirmed.  Whenever the loop is over and no more than 5 seconds have
    passed, the call returns the store; the store then reports the feature,
    and either it reports the desired state, or all five retries were used
    and it still reports another one. *)
Theorem send_command_return_without_confirmation
    background feature state name data st start retry st1 :
  get_feature_name feature = Some name ->
  array_B (command_data feature state) = Some data ->
  send_command_await background name state data
    (set_port_out (port_out st ++ [data]) st) = Return (start, retry) st1 ->
  clock st1 (tick st1) - start <= timeout * 1000000 ->
  send_command background feature state st =
    Return (status st1) (set_tick (S (S (tick st1))) st1) /\
  exists v, status st1 !! name = Some v /\
            (py_eqb v state = true \/ (retry = 0%nat /\ py_eqb v state = false)).
Proof.
  intros Hname Hdata Hawait Hfast. split.
  - rewrite (send_command_unfold _ _ _ _ _ _ Hname Hdata).
    unfold send_command_confirm. rewrite (bind_Return _ _ _ _ _ Hawait).
    rewrite send_command_finish_spec.
    rewrite bool_decide_eq_false_2 by lia. reflexivity.
  - apply (send_command_await_exit _ _ _ _ _ _ _ _ Hawait).
Qed.

Lemma send_command_return_without_confirmation_witness :
  let off := frame (status_body 0 0 25) in
  let st := at_pace 1000 (off ++ off ++ off ++ off ++ off ++ off) in
  let data := default [] (array_B (command_data Feature.POOL (VStr "on"))) in
  let st1 := final (send_command_await run_pass "pool" (VStr "on") data
                      (set_port_out (port_out st ++ [data]) st)) in
  send_command run_pass Feature.POOL (VStr "on") st =
    Return (status st1) (set_tick (S (S (tick st1))) st1) /\
  exists v, status st1 !! "pool" = Some v /\
            (py_eqb v (VStr "on") = true \/ (0%nat = 0%nat /\ py_eqb v (VStr "on") = false)).
Proof.
  intros off st data st1.
  apply (send_command_return_without_confirmation run_pass Feature.POOL (VStr "on")
           "pool" data st 0 0%nat st1).
  - reflexivity.
  - reflexivity.
  - vm_compute. reflexivity.
  - vm_compute. discriminate.
Defined.

(** X14: a [state] argument that is not a string is never confirmed: the
    store holds the strings "on" and "off", which equal no integer and no
    boolean, so a call that gets past its loop has used all five retries. *)
Theorem send_command_non_string_state background name state data st start retry st1 s :
  send_command_await background name state data st = Return (start, retry) st1 ->
  (forall t, state <> VStr t) ->
  status st1 !! name = Some (VStr s) ->
  retry = 0%nat.
Proof.
  intros Hawait Hstate Hs.
  destruct (send_command_await_exit _ _ _ _ _ _ _ _ Hawait) as (v & Hv & [Heq|[Hr _]]);
    [|exact Hr].
  rewrite Hs in Hv. injection Hv as <-.
  destruct state as [t|n|b|t]; simpl in Heq; try discriminate Heq.
  exfalso. exact (Hstate t eq_refl).
Qed.

Lemma send_command_non_string_state_witness :
  let on := frame (status_body 0x20 0 25) in
  let st := at_pace 1000 (on ++ on ++ on ++ on ++ on ++ on) in
  let data := default [] (array_B (command_data Feature.POOL (VInt 1))) in
  let st0 := set_port_out (port_out st ++ [data]) st in
  exists retry st1,
    send_command_await run_pass "pool" (VInt 1) data st0 = Return (0, retry) st1 /\
    status st1 !! "pool" = Some (VStr "on") /\
    retry = 0%nat.
Proof.
  intros on st data st0.
  pose (st1 := final (send_command_await run_pass "pool" (VInt 1) data st0)).
  assert (Hawait : send_command_await run_pass "pool" (VInt 1) data st0
                   = Return (0, 0%nat) st1) by (vm_compute; reflexivity).
  assert (Hs : status st1 !! "pool" = Some (VStr "on")) by (vm_compute; reflexivity).
  exists 0%nat, st1. split; [exact Hawait|]. split; [exact Hs|].
  apply (send_command_non_string_state run_pass "pool" (VInt 1) data st0 0 0%nat st1 "on"
           Hawait).
  - discriminate.
  - exact Hs.
Defined.

(** X15: a feature number outside 1..9 makes [send_command] raise
    [KeyError] at once: nothing is written and the state is untouched. *)
Theorem send_command_unknown_feature background feature state st :
  ~ 1 <= feature <= 9 ->
  send_command background feature state st = Raise KeyError st.
Proof.
  intros Hr. unfold send_command, bind, lift.
  destruct (get_feature_name feature) as [name|] eqn:E; [|reflexivity].
  apply get_feature_name_cases in E. lia.
Qed.

Lemma send_command_unknown_feature_witness :
  send_command run_pass 10 (VStr "on") (idle []) = Raise KeyError (idle []).
Proof.
  apply (send_command_unknown_feature run_pass 10 (VStr "on") (idle [])). lia.
Defined.

(** X16: when the snapshot found after the first wait has no entry for the
    feature (the store is empty until a status frame with more than 8 payload
    bytes has been decoded), [send_command] raises [KeyError]; the command
    frame has been written by then. *)
Theorem send_command_before_first_status background feature state name data st st1 :
  get_feature_name feature = Some name ->
  array_B (command_data feature state) = Some data ->
  let st0 := set_port_out (port_out st ++ [data]) st in
  background (set_ready false (set_tick (S (tick st0)) st0)) = Some st1 ->
  ready st1 = true ->
  status st1 !! name = None ->
  send_command background feature state st = Raise KeyError st1.
Proof.
  intros Hname Hdata st0 Hbg Hready Hnone.
  rewrite (send_command_unfold _ _ _ _ _ _ Hname Hdata). fold st0.
  unfold send_command_confirm, send_command_await.
  rewrite bind_assoc, bind_now. cbv beta.
  assert (Hget : get_status background (set_tick (S (tick st0)) st0) =
                 Return (status st1) st1).
  { unfold get_status. rewrite Hbg, Hready. reflexivity. }
  rewrite bind_assoc, (bind_Return _ _ _ _ _ Hget).
  unfold bind, fetch, lift. rewrite Hnone. reflexivity.
Qed.

Lemma send_command_before_first_status_witness :
  let st := idle (frame [165; 1; 15; 16; 2; 2; 10; 30]) in
  let data := default [] (array_B (command_data Feature.SPA (VStr "on"))) in
  let st0 := set_port_out (port_out st ++ [data]) st in
  let st1 := final (get_status run_pass (set_tick (S (tick st0)) st0)) in
  send_command run_pass Feature.SPA (VStr "on") st = Raise KeyError st1 /\
  port_out st1 = [data].
Proof.
  intros st data st0 st1. split; [|vm_compute; reflexivity].
  apply (send_command_before_first_status run_pass Feature.SPA (VStr "on") "spa"
           data st st1); vm_compute; reflexivity.
Defined.

(** ** The thread *)








(** * The pass as a whole (C7, C8) *)

Lemma read_status_pump_keys packet src st :
  is_frame packet ->
  exists d,
    read_status_pump packet src st = Return tt (set_status d st) /\
    forall key, key <> "pump_watts"%string -> key <> "pump_rpm"%string ->
                d !! key = status st !! key.
Proof.
  intros Hf. pose proof (is_frame_length _ Hf) as Hlen.
  destruct (lookup_lt_is_Some_2 packet 4) as [cmd H4]; [lia|].
  unfold read_status_pump.
  destruct (py_eqb src (VStr "Pump1"));
    [|exists (status st); rewrite set_status_same; auto].
  rewrite (bind_item _ _ _ _ _ H4). cbv beta.
  destruct (bool_decide (cmd = 7) && bool_decide (length packet = 21%nat)) eqn:E;
    [|exists (status st); rewrite set_status_same; auto].
  apply andb_prop in E as [_ L21%bool_decide_eq_true_1].
  destruct (lookup_lt_is_Some_2 packet 9) as [w1 H9]; [lia|].
  destruct (lookup_lt_is_Some_2 packet 10) as [w0 H10]; [lia|].
  destruct (lookup_lt_is_Some_2 packet 11) as [r1 H11]; [lia|].
  destruct (lookup_lt_is_Some_2 packet 12) as [r0 H12]; [lia|].
  rewrite (bind_item _ _ _ _ _ H9). cbv beta.
  rewrite (bind_item _ _ _ _ _ H10). cbv beta.
  rewrite bind_store. cbv beta.
  rewrite (bind_item _ _ _ _ _ H11). cbv beta.
  rewrite (bind_item _ _ _ _ _ H12). cbv beta.
  eexists. split; [reflexivity|].
  intros key K1 K2. simpl. rewrite !lookup_insert_ne by congruence. reflexivity.
Qed.

(** Between the start of a pass and the frame it accepts, the store can
    change in the two pump keys only. *)
Lemma read_status_loop_keys (turns : nat) :
  forall controller st x st1,
    read_status_loop turns controller st = Return x st1 ->
    forall key, key <> "pump_watts"%string -> key <> "pump_rpm"%string ->
                status st1 !! key = status st !! key.
Proof.
  induction turns as [|turns IH]; intros controller st x st1 H key K1 K2;
    [discriminate H|].
  destruct (get_packet st) as [packet s|e s|s] eqn:Hg.
  - destruct (get_packet_consumes _ _ _ Hg) as [E _].
    assert (Hs : status s = status st) by (rewrite E; reflexivity).
    destruct (decide (packet = [])) as [->|Hne].
    + cbn [read_status_loop] in H. rewrite (bind_Return _ _ _ _ _ Hg) in H.
      rewrite bool_decide_eq_false_2 in H by (simpl; lia).
      rewrite (IH _ _ _ _ H key K1 K2), Hs. reflexivity.
    + destruct (get_packet_is_frame _ _ _ Hg) as [->|Hf]; [contradiction|].
      destruct (read_status_loop_turn turns controller st packet s Hg Hne)
        as (dst & src & d & _ & _ & Hp & Hstep).
      destruct (read_status_pump_keys packet (controller_of src) s Hf) as (d' & Hp' & Hk).
      rewrite Hp in Hp'. injection Hp' as ->.
      rewrite Hstep in H.
      destruct (bool_decide (controller = None) || bool_decide (dst = Ctrl.BROADCAST)).
      * injection H as _ <-. simpl. rewrite (Hk key K1 K2), Hs. reflexivity.
      * rewrite (IH _ _ _ _ H key K1 K2). simpl. rewrite (Hk key K1 K2), Hs. reflexivity.
  - cbn [read_status_loop] in H. unfold bind in H. rewrite Hg in H. discriminate H.
  - cbn [read_status_loop] in H. unfold bind in H. rewrite Hg in H. discriminate H.
Qed.

Lemma read_status_unfold controller st packet src dst st1 :
  read_status_loop (S (length (port_in st))) controller st = Return (packet, src, dst) st1 ->
  read_status controller st = read_status_decode packet src dst st1.
Proof. intros H. unfold read_status, bind. rewrite H. reflexivity. Qed.

(** C7, amended: every update pass that completes sets the freshness flag
    and returns the store.  When the frame the pass accepts declares more
    than 8 payload bytes, the pass has merged the newly decoded fields
    (capture time, source, destination, time of day and the nine equipment
    states) into the stored snapshot, and it completes unless the packet has
    20 or 24 items.  When the frame declares 8 bytes or fewer, the pass
    completes and sets the flag without merging any decoded field: the
    snapshot it leaves differs from the one at the start of the pass in no key
    other than [pump_watts] and [pump_rpm], which pump frames met during the
    pass may have set. *)
Theorem read_status_pass_sets_ready controller st packet src dst st1 n :
  read_status_loop (S (length (port_in st))) controller st = Return (packet, src, dst) st1 ->
  packet !! 5%nat = Some n ->
  read_status controller st = read_status_decode packet src dst st1 /\
  (forall d st', read_status controller st = Return d st' ->
                 ready st' = true /\ d = status st') /\
  (forall key, key <> "pump_watts"%string -> key <> "pump_rpm"%string ->
               status st1 !! key = status st !! key) /\
  (n <= 8 ->
   read_status controller st = Return (status st1) (set_ready true st1)) /\
  (8 < n ->
   let d := status (final (read_status controller st)) in
   d !! "last_update" = Some (VTime (clock st1 (tick st1))) /\
   d !! "source" = Some src /\
   d !! "destination" = Some dst /\
   is_Some (d !! "time") /\
   (forall key, key ∈ FeatureName.*1 -> exists b, d !! key = Some (VStr (on_off b)))) /\
  (8 < n -> length packet <> 20%nat -> length packet <> 24%nat ->
   exists d st', read_status controller st = Return d st').
Proof.
  intros Hloop H5.
  pose proof (read_status_loop_is_frame _ _ _ _ _ _ _ Hloop) as Hf.
  rewrite (read_status_unfold _ _ _ _ _ _ Hloop).
  assert (Hlong : 8 < n ->
            exists h m e1 e2,
              read_status_decode packet src dst st1 =
                match read_status_temps packet
                        (set_status
                           (assign_all
                              (decoded_fields (clock st1 (tick st1)) src dst h m e1 e2)
                              (status st1))
                           (set_tick (S (tick st1)) st1)) with
                | Return _ s => Return (status s) (set_ready true s)
                | Raise e s => Raise e s
                | Blocked s => Blocked s
                end /\
              forall key, key <> "water_temp"%string -> key <> "air_temp"%string ->
                status (final (read_status_decode packet src dst st1)) !! key =
                assign_all (decoded_fields (clock st1 (tick st1)) src dst h m e1 e2)
                           (status st1) !! key).
  { intros Hn.
    destruct (is_frame_items packet n Hf H5 Hn)
      as (h & m & e1 & e2 & H6 & H7 & H8 & H9 & He1 & He2 & _).
    exists h, m, e1, e2. split.
    - apply (read_status_decode_long _ _ _ _ _ _ _ _ _ H5 Hn H6 H7 H8 H9 He1 He2).
    - intros key K1 K2.
      apply (read_status_decode_fields _ _ _ _ _ _ _ _ _ _ H5 Hn H6 H7 H8 H9 He1 He2 K1 K2). }
  split; [reflexivity|]. split; [|split; [|split; [|split]]].
  - intros d st' Hd. destruct (Z.le_gt_cases n 8) as [Hn|Hn].
    + rewrite (read_status_decode_short _ _ _ _ _ H5 Hn) in Hd.
      injection Hd as <- <-. split; reflexivity.
    + destruct (Hlong Hn) as (h & m & e1 & e2 & E & _). rewrite E in Hd.
      destruct (read_status_temps packet _) as [u s|e s|s]; try discriminate Hd.
      injection Hd as <- <-. split; reflexivity.
  - apply (read_status_loop_keys _ _ _ _ _ Hloop).
  - intros Hn. apply (read_status_decode_short _ _ _ _ _ H5 Hn).
  - intros Hn. destruct (Hlong Hn) as (h & m & e1 & e2 & _ & Hkey). cbv zeta.
    split; [rewrite Hkey by discriminate; read_assigned|].
    split; [rewrite Hkey by discriminate; read_assigned|].
    split; [rewrite Hkey by discriminate; read_assigned|].
    split; [rewrite Hkey by discriminate; eexists; read_assigned|].
    intros key Hin. unfold FeatureName in Hin. cbn [fmap list_fmap fst] in Hin.
    repeat (apply elem_of_cons in Hin as [->|Hin]);
      [eexists; rewrite Hkey by discriminate; read_assigned .. |].
    apply elem_of_nil in Hin. contradiction.
  - intros Hn L20 L24. destruct (Hlong Hn) as (h & m & e1 & e2 & E & _). rewrite E.
    match goal with
    | |- context [read_status_temps packet ?s] =>
        destruct (read_status_temps_spec packet s) as (d & _ & _ & Hout)
    end.
    destruct (read_status_temps packet _) as [u s|e s|s].
    + eexists _, _. reflexivity.
    + destruct Hout as [_ [?|?]]; contradiction.
    + contradiction.
Qed.




Lemma read_status_pass_sets_ready_witness :
  let pump := [165; 0; 16; 96; 7; 15; 10; 2; 0; 1; 44; 9; 196; 0; 0; 0; 0; 0; 0; 0; 0] in
  let short := [165; 1; 15; 16; 2; 2; 10; 30] in
  let before := <["pool" := VStr "on"]> (<["pump_watts" := VInt 0]> ∅) in
  let st := set_status before (idle (frame pump ++ frame short)) in
  let long := status_body 0xa1 0 25 in
  (exists st',
     read_status (Some Ctrl.BROADCAST) st = Return (status st') st' /\
     ready st' = true /\
     port_in st' = [] /\
     status st' !! "pool" = status st !! "pool" /\
     status st' !! "last_update" = None /\
     status st !! "pump_watts" = Some (VInt 0) /\
     status st' !! "pump_watts" = Some (VInt 300) /\
     status st' !! "pump_rpm" = Some (VInt 2500)) /\
  (exists d st',
     read_status (Some Ctrl.BROADCAST) (idle (frame long)) = Return d st' /\
     ready st' = true /\ d = status st' /\
     d !! "last_update" = Some (VTime 0) /\
     d !! "source" = Some (VStr "Main") /\
     d !! "destination" = Some (VStr "Broadcast") /\
     is_Some (d !! "time") /\
     (forall key, key ∈ FeatureName.*1 -> exists b, d !! key = Some (VStr (on_off b)))).
Proof.
  cbv zeta. split.
  - set (st := set_status (<["pool" := VStr "on"]> (<["pump_watts" := VInt 0]> ∅))
                 (idle (frame [165; 0; 16; 96; 7; 15; 10; 2; 0; 1; 44; 9; 196;
                               0; 0; 0; 0; 0; 0; 0; 0]
                        ++ frame [165; 1; 15; 16; 2; 2; 10; 30]))).
    set (st1 := final (read_status_loop (S (length (port_in st)))
                         (Some Ctrl.BROADCAST) st)).
    destruct (read_status_pass_sets_ready (Some Ctrl.BROADCAST) st
                [165; 1; 15; 16; 2; 2; 10; 30] (VStr "Main") (VStr "Broadcast") st1 2)
      as (_ & _ & K & S & _); [vm_compute; reflexivity | reflexivity |].
    exists (set_ready true st1).
    split; [apply S; lia|]. split; [reflexivity|]. split; [vm_compute; reflexivity|].
    split; [apply K; discriminate|]. repeat split; vm_compute; reflexivity.
  - destruct (read_status_pass_sets_ready (Some Ctrl.BROADCAST)
                (idle (frame (status_body 0xa1 0 25)))
                (status_body 0xa1 0 25) (VStr "Main") (VStr "Broadcast") (idle []) 29)
      as (_ & R & _ & _ & L & T); [vm_compute; reflexivity | reflexivity |].
    destruct T as (d & st' & E); [lia | vm_compute; lia | vm_compute; lia |].
    destruct (R d st' E) as [Hr Hd].
    assert (8 < 29) as Hn by lia. specialize (L Hn). cbv zeta in L.
    rewrite E in L. change (status (final (Return d st'))) with (status st') in L.
    rewrite <- Hd in L.
    exists d, st'. split; [exact E|]. split; [exact Hr|]. split; [exact Hd|]. exact L.
Defined.
